(** * DataIntegrityChecker: a shallow embedding of [main.py]

    The script loads a CSV file into a pandas DataFrame and runs three
    diagnostics over it (missing values, duplicate rows, outliers).  Its own
    code is glue: exception handlers, the order of the calls, the messages
    printed.  That glue is embedded here as an exception-and-state monad over
    the checker object and the world it acts on; pandas' frame operations are
    written out on a column-major frame, and the numerical routines of
    scikit-learn are an interface ([Sklearn]) whose instances are arbitrary. *)

From Stdlib Require Import Ascii String ZArith QArith Qcanon.
From stdpp Require Import gmap strings list fin_maps pretty.

Local Open Scope Z_scope.
Local Open Scope string_scope.
Local Open Scope list_scope.

(** ** Python exceptions *)

(** The classes an exception of this program can belong to.  All of them
    derive from [Exception]; [mro] lists a class with its ancestors, as
    Python's method resolution order does.  The signals of the interpreter
    that are not exceptions of this kind ([KeyboardInterrupt], [SystemExit])
    are left out. *)
Inductive pyclass :=
  | Exception
  | OSError | FileNotFoundError | PermissionError | IsADirectoryError
  | ValueError | UnicodeDecodeError | EmptyDataError | ParserError
  | AttributeError | TypeError | MemoryError.

#[global] Instance pyclass_eq_dec : EqDecision pyclass.
Proof. solve_decision. Defined.

Definition mro (c : pyclass) : list pyclass :=
  match c with
  | Exception => [Exception]
  | OSError => [OSError; Exception]
  | FileNotFoundError => [FileNotFoundError; OSError; Exception]
  | PermissionError => [PermissionError; OSError; Exception]
  | IsADirectoryError => [IsADirectoryError; OSError; Exception]
  | ValueError => [ValueError; Exception]
  | UnicodeDecodeError => [UnicodeDecodeError; ValueError; Exception]
  | EmptyDataError => [EmptyDataError; ValueError; Exception]
  | ParserError => [ParserError; ValueError; Exception]
  | AttributeError => [AttributeError; Exception]
  | TypeError => [TypeError; Exception]
  | MemoryError => [MemoryError; Exception]
  end.

Definition issubclass (c d : pyclass) : bool := bool_decide (d ∈ mro c).

(** An exception object: its class and what [str(e)] gives. *)
Record exn := mk_exn { exn_class : pyclass; exn_str : string }.

#[global] Instance exn_eq_dec : EqDecision exn.
Proof. solve_decision. Defined.

Definition isinstance (e : exn) (c : pyclass) : bool := issubclass (exn_class e) c.

(** The result of a call that may raise. *)
Inductive result (A : Type) :=
  | Ok (a : A)
  | Raise (e : exn).
Arguments Ok {A} a.
Arguments Raise {A} e.

(** ** Frames *)

#[global] Instance Qc_eq_decision : EqDecision Qc := Qc_eq_dec.

(** A float64 is carried as the number it denotes: a rational (every finite
    float is one) or an infinity.  The two zeros, 0.0 and -0.0, are one
    number, and two floats are the same exactly when pandas compares them
    equal.  Not-a-number is no value of this type: in a frame it is the
    missing marker.  No arithmetic is done on floats here: floating-point
    operations round, and every numerical routine belongs to the libraries. *)
Inductive float64 :=
  | Finite (q : Qc)
  | Infinity (negative : bool).

#[global] Instance float64_eq_dec : EqDecision float64.
Proof. solve_decision. Defined.

(** A cell of a frame: the missing marker, or a scalar of the column's
    dtype. *)
Inductive cell :=
  | NaN
  | Int (z : Z)
  | Float (x : float64)
  | Bool (b : bool)
  | Str (s : string).

#[global] Instance cell_eq_dec : EqDecision cell.
Proof. solve_decision. Defined.

#[global] Instance cell_inhabited : Inhabited cell := populate NaN.

Inductive dtype := int64 | float64_ | bool_ | object_.

#[global] Instance dtype_eq_dec : EqDecision dtype.
Proof. solve_decision. Defined.

(** [np.number] covers the integer and floating dtypes, not [bool_]. *)
Definition is_number (d : dtype) : bool :=
  match d with
  | int64 | float64_ => true
  | bool_ | object_ => false
  end.

(** A named column. *)
Record Series := mk_series {
  name : string;
  col_dtype : dtype;
  values : list cell }.

(** A frame: the length of its row index and its columns, in order. *)
Record DataFrame := mk_df {
  index : nat;
  columns : list Series }.

(** Every column has one cell per row of the index. *)
Definition df_wf (df : DataFrame) : Prop :=
  Forall (fun s => length (values s) = index df) (columns df).

#[global] Instance df_wf_dec df : Decision (df_wf df).
Proof. unfold df_wf. apply _. Defined.

Definition shape (df : DataFrame) : nat * nat := (index df, length (columns df)).

(** Row [i]: the cells of every column at position [i]. *)
Definition row (df : DataFrame) (i : nat) : list cell :=
  map (fun s => values s !!! i) (columns df).

Definition rows (df : DataFrame) : list (list cell) :=
  map (row df) (seq 0 (index df)).

(** Modelled from the spec: [df.isnull()], a pandas method the script
    calls.  An entry is null when it is the missing marker; the result is the
    frame of booleans, column by column. *)
Definition cell_isnull (c : cell) : bool :=
  match c with
  | NaN => true
  | _ => false
  end.

Definition isnull (df : DataFrame) : list (string * list bool) :=
  map (fun s => (name s, map cell_isnull (values s))) (columns df).

(** Summing booleans counts the [True]s. *)
Definition sum_bools (bs : list bool) : nat :=
  foldr (fun (b : bool) acc => (if b then 1 else 0) + acc)%nat 0%nat bs.

(** Modelled from the spec: pandas' [.sum()] on a boolean frame, which
    gives one count per column, labelled by the column. *)
Definition frame_sum (m : list (string * list bool)) : list (string * nat) :=
  map (fun '(c, bs) => (c, sum_bools bs)) m.

(** Modelled from the spec: pandas' [.sum()] on the series of counts, the
    total over all columns. *)
Definition series_sum (s : list (string * nat)) : nat :=
  foldr (fun '(_, k) acc => k + acc)%nat 0%nat s.

(** Modelled from the spec: [df.duplicated()], a pandas method the script
    calls, with its default [keep='first'].  Scanning the rows in order, a
    row is marked when an equal row has been seen before it; two rows are
    equal when all their column values are.  Values compare as pandas
    compares them: floats by the number they denote, and missing markers
    equal to each other. *)
Fixpoint duplicated_from (seen : list (list cell)) (rs : list (list cell)) : list bool :=
  match rs with
  | [] => []
  | r :: rs' =>
      if bool_decide (r ∈ seen) then true :: duplicated_from seen rs'
      else false :: duplicated_from (r :: seen) rs'
  end.

Definition duplicated (df : DataFrame) : list bool := duplicated_from [] (rows df).

(** [.any()] *)
Definition any (bs : list bool) : bool := existsb id bs.

(** Modelled from the spec: [df.select_dtypes(include=[np.number])], the
    numeric subview.  It is a new frame with the numeric columns, on the same
    index; the frame it is taken from is not touched. *)
Definition select_dtypes_number (df : DataFrame) : DataFrame :=
  mk_df (index df) (filter (fun s => is_number (col_dtype s) = true) (columns df)).

(** ** The libraries *)

(** A numeric array: rows of floats, where [None] is not-a-number. *)
Definition ndarray := list (list (option float64)).

(** The fitted attributes of a [StandardScaler]. *)
Record scaler_params := mk_scaler {
  mean_ : list (option float64);
  scale_ : list (option float64) }.

(** The keyword arguments given to [IsolationForest]. *)
Record forest_params := mk_forest {
  contamination : Q;
  random_state : option Z }.

(** pandas' tokenizer and converters, for the text of a non-empty file. *)
Class Pandas := {
  read_text : string -> result DataFrame }.

(** scikit-learn.  [scaler_fit_transform] refits from the data alone;
    [forest_fit] receives the seed its random generator starts from. *)
Class Sklearn := {
  forest_model : Type;
  scaler_fit_transform : DataFrame -> result (scaler_params * ndarray);
  forest_fit : forest_params -> Z -> ndarray -> result forest_model;
  forest_predict : forest_model -> ndarray -> result (list Z) }.

(** ** The checker and its world *)

Record file := mk_file {
  readable : bool;
  content : string }.

(** What one call of [print] writes: a text (a line; more than one when a
    message has line breaks in it), or the display of a series of per-column
    counts, which has a line for each column. *)
Inductive printed :=
  | Line (s : string)
  | SeriesRepr (s : list (string * nat)).

#[global] Instance printed_eq_dec : EqDecision printed.
Proof. solve_decision. Defined.

(** The attributes of [self], then the world: standard output, the paths
    [pd.read_csv] was called on, numpy's global random generator and the
    file system. *)
Record state := mk_state {
  file_path : string;
  data : option DataFrame;
  scaler : option scaler_params;
  stdout : list printed;
  read_log : list string;
  np_random : Z;
  fs : gmap string file }.

Definition set_data (d : option DataFrame) (st : state) : state :=
  mk_state (file_path st) d (scaler st) (stdout st) (read_log st) (np_random st) (fs st).

Definition set_scaler (s : option scaler_params) (st : state) : state :=
  mk_state (file_path st) (data st) s (stdout st) (read_log st) (np_random st) (fs st).

Definition add_stdout (p : printed) (st : state) : state :=
  mk_state (file_path st) (data st) (scaler st) (stdout st ++ [p]) (read_log st)
    (np_random st) (fs st).

Definition add_read (p : string) (st : state) : state :=
  mk_state (file_path st) (data st) (scaler st) (stdout st) (read_log st ++ [p])
    (np_random st) (fs st).

Definition set_np_random (r : Z) (st : state) : state :=
  mk_state (file_path st) (data st) (scaler st) (stdout st) (read_log st) r (fs st).

(** ** The monad of statements *)

Definition M (A : Type) : Type := state -> result A * state.

Definition ret {A} (a : A) : M A := fun st => (Ok a, st).

Definition bind {A B} (m : M A) (k : A -> M B) : M B :=
  fun st =>
    match m st with
    | (Ok a, st') => k a st'
    | (Raise e, st') => (Raise e, st')
    end.

Definition raise {A} (e : exn) : M A := fun st => (Raise e, st).

Definition lift {A} (r : result A) : M A := fun st => (r, st).

Definition get : M state := fun st => (Ok st, st).

Definition modify (f : state -> state) : M unit := fun st => (Ok tt, f st).

Definition print (p : printed) : M unit := modify (add_stdout p).

Declare Scope py_scope.
Delimit Scope py_scope with py.
Notation "x <- m ;; k" := (bind m (fun x => k))
  (at level 100, m at next level, right associativity) : py_scope.
Notation "m ;; k" := (bind m (fun _ => k))
  (at level 100, right associativity) : py_scope.
Local Open Scope py_scope.

(** [try: body except C1 as e: h1 except C2 as e: h2 ...]: the first clause
    whose class the exception is an instance of handles it; with none, the
    exception goes on.  What the body did before raising stays done. *)
Fixpoint find_handler {A} (e : exn) (hs : list (pyclass * (exn -> M A))) : option (exn -> M A) :=
  match hs with
  | [] => None
  | (c, h) :: hs' => if isinstance e c then Some h else find_handler e hs'
  end.

Definition try_except {A} (body : M A) (hs : list (pyclass * (exn -> M A))) : M A :=
  fun st =>
    match body st with
    | (Ok a, st') => (Ok a, st')
    | (Raise e, st') =>
        match find_handler e hs with
        | Some h => h e st'
        | None => (Raise e, st')
        end
    end.

(** ** Library calls as statements *)

(** Modelled from the spec: opening the file, inside [pd.read_csv].  A path
    with no file fails with NotFound, as the spec has it; a file that is
    there but may not be read fails with [PermissionError], as Python's
    [open] does. *)
Definition open_file (path : string) (st : state) : result string :=
  match fs st !! path with
  | None =>
      Raise (mk_exn FileNotFoundError
               ("[Errno 2] No such file or directory: '" +:+ path +:+ "'"))
  | Some f =>
      if readable f then Ok (content f)
      else Raise (mk_exn PermissionError
                    ("[Errno 13] Permission denied: '" +:+ path +:+ "'"))
  end.

(** Modelled from the spec: [pd.read_csv(path)], pandas code the script
    calls.  It opens the file, fails with Empty on a file with nothing in
    it, and hands any other text to the tokenizer, which gives a frame or
    raises (ParseError and whatever else it may raise). *)
Definition read_csv `{Pandas} (path : string) : M DataFrame :=
  modify (add_read path) ;;
  st <- get ;;
  text <- lift (open_file path st) ;;
  if decide (text = "") then raise (mk_exn EmptyDataError "No columns to parse from file")
  else lift (read_text text).

(** [self.data.attr]: the attribute lookup fails on [None]. *)
Definition data_attr (attr : string) : M DataFrame :=
  st <- get ;;
  match data st with
  | Some df => ret df
  | None =>
      raise (mk_exn AttributeError
               ("'NoneType' object has no attribute '" +:+ attr +:+ "'"))
  end.

(** Modelled from the spec: [self.scaler.fit_transform(X)].  The scaling
    parameters are fitted from this table: [fit] forgets the earlier fit,
    learns the parameters from [X] and applies them to a copy of it. *)
Definition StandardScaler_fit_transform `{Sklearn} (X : DataFrame) : M ndarray :=
  modify (set_scaler None) ;;
  r <- lift (scaler_fit_transform X) ;;
  modify (set_scaler (Some (fst r))) ;;
  ret (snd r).

(** Modelled from the spec: how scikit-learn reads [random_state].  An
    integer seeds a generator of its own, which is what makes a run
    reproducible; [None] means numpy's global generator. *)
Definition check_random_state (seed : option Z) : M Z :=
  match seed with
  | Some s => ret s
  | None => st <- get ;; ret (np_random st)
  end.

Definition IsolationForest_fit `{Sklearn} (p : forest_params) (X : ndarray) : M forest_model :=
  rng <- check_random_state (random_state p) ;;
  lift (forest_fit p rng X).

(** [np.sum(outliers == -1)] *)
Definition count_eq (v : Z) (l : list Z) : nat :=
  length (filter (fun x => x = v) l).

(** ** DataIntegrityChecker *)

Definition __init__ (path : string) (st : state) : state :=
  mk_state path None None (stdout st) (read_log st) (np_random st) (fs st).

Definition load_data `{Pandas} : M unit :=
  try_except
    (st <- get ;;
     df <- read_csv (file_path st) ;;
     modify (set_data (Some df)) ;;
     print (Line "Data loaded successfully."))
    [ (FileNotFoundError,
        fun e => print (Line ("Error: " +:+ exn_str e)) ;; raise e);
      (EmptyDataError,
        fun e => print (Line "Error: No data found at the specified path.") ;; raise e);
      (ParserError,
        fun e => print (Line ("Error parsing data:  " +:+ exn_str e)) ;; raise e) ].

(** The statements inside the [try] of [check_missing_values]. *)
Definition missing_values_body : M unit :=
  df <- data_attr "isnull" ;;
  if (0 <? series_sum (frame_sum (isnull df)))%nat then
    print (Line "Warning: Missing values detected.") ;;
    df' <- data_attr "isnull" ;;
    print (SeriesRepr (frame_sum (isnull df')))
  else
    print (Line "No missing values detected.").

Definition check_missing_values : M unit :=
  try_except missing_values_body
    [ (Exception,
        fun e => print (Line ("Error checking missing values: " +:+ exn_str e))) ].

(** The statements inside the [try] of [check_duplicates]. *)
Definition duplicates_body : M unit :=
  df <- data_attr "duplicated" ;;
  if any (duplicated df) then
    print (Line "Warning: Duplicate records detected.") ;;
    df' <- data_attr "duplicated" ;;
    print (Line ("Number of duplicates: " +:+ pretty (sum_bools (duplicated df'))))
  else
    print (Line "No duplicate records detected.").

Definition check_duplicates : M unit :=
  try_except duplicates_body
    [ (Exception,
        fun e => print (Line ("Error checking duplicates: " +:+ exn_str e))) ].

(** The labels [model.predict] gives the rows, or the exception met on the
    way: the part of [check_outliers] before the count. *)
Definition outlier_labels `{Sklearn} : M (list Z) :=
  df <- data_attr "select_dtypes" ;;
  let numeric_data := select_dtypes_number df in
  scaled_data <- StandardScaler_fit_transform numeric_data ;;
  let model := mk_forest (1 # 100) (Some 42) in
  fitted <- IsolationForest_fit model scaled_data ;;
  lift (forest_predict fitted scaled_data).

(** The statements inside the [try] of [check_outliers]. *)
Definition outliers_body `{Sklearn} : M unit :=
  outliers <- outlier_labels ;;
  let num_outliers := count_eq (-1) outliers in
  if (0 <? num_outliers)%nat then
    print (Line ("Outliers detected: " +:+ pretty num_outliers))
  else
    print (Line "No outliers detected.").

Definition check_outliers `{Sklearn} : M unit :=
  try_except outliers_body
    [ (Exception,
        fun e => print (Line ("Error during outlier detection: " +:+ exn_str e))) ].

Definition run_checks `{Pandas} `{Sklearn} : M unit :=
  load_data ;;
  check_missing_values ;;
  check_duplicates ;;
  check_outliers.

(** The script's entry point. *)
Definition main `{Pandas} `{Sklearn} : M unit :=
  modify (__init__ "path_to_your_dataset.csv") ;;
  try_except run_checks
    [ (Exception,
        fun e => print (Line ("An error occurred while running data integrity checks: "
                              +:+ exn_str e))) ].

(** ** Reading the handlers of [load_data] *)

(** What the [except] clauses of [load_data] print for [e], when one of them
    takes it. *)
Definition loader_diagnostic (e : exn) : option printed :=
  match exn_class e with
  | FileNotFoundError => Some (Line ("Error: " +:+ exn_str e))
  | EmptyDataError => Some (Line "Error: No data found at the specified path.")
  | ParserError => Some (Line ("Error parsing data:  " +:+ exn_str e))
  | _ => None
  end.

(** The loader's contract as the specification words it: a table and the
    confirmation, or one of the three failures and a diagnostic. *)
Definition loader_contract `{Pandas} (st : state) : Prop :=
  let out := load_data st in
  match fst out with
  | Ok _ =>
      (exists df, data (snd out) = Some df) /\
      stdout (snd out) = stdout st ++ [Line "Data loaded successfully."]
  | Raise e =>
      exn_class e ∈ [FileNotFoundError; EmptyDataError; ParserError] /\
      (exists p, stdout (snd out) = stdout st ++ [p])
  end.

(** ** What the reports are about *)

(** The entries of a column that are the missing marker. *)
Definition missing_count (s : Series) : nat :=
  length (filter (fun c => c = NaN) (values s)).

Definition missing_counts (df : DataFrame) : list (string * nat) :=
  map (fun s => (name s, missing_count s)) (columns df).

Definition total_missing (df : DataFrame) : nat :=
  sum_list (map missing_count (columns df)).

(** Rows [i] and [j] agree in every column. *)
Definition same_row (df : DataFrame) (i j : nat) : Prop :=
  Forall (fun s => values s !!! i = values s !!! j) (columns df).

(** Row [i] repeats a row above it. *)
Definition duplicate_row (df : DataFrame) (i : nat) : Prop :=
  Exists (fun j => same_row df j i) (seq 0 i).

#[global] Instance same_row_dec df i j : Decision (same_row df i j).
Proof. unfold same_row. apply _. Defined.

#[global] Instance duplicate_row_dec df i : Decision (duplicate_row df i).
Proof. unfold duplicate_row. apply _. Defined.

Definition duplicate_count (df : DataFrame) : nat :=
  length (filter (duplicate_row df) (seq 0 (index df))).

(** [st'] differs from [st] by lines added to standard output and,
    possibly, by the fit of the scaler: the loaded table, the log of reads,
    the random generator and the files are the same. *)
Definition only_prints (st st' : state) : Prop :=
  file_path st' = file_path st /\
  data st' = data st /\
  read_log st' = read_log st /\
  np_random st' = np_random st /\
  fs st' = fs st /\
  stdout st `prefix_of` stdout st'.

(** The line [check_outliers] prints for the outcome of its pipeline. *)
Definition outlier_report (r : result (list Z)) : printed :=
  match r with
  | Ok outliers =>
      if (0 <? count_eq (-1) outliers)%nat then
        Line ("Outliers detected: " +:+ pretty (count_eq (-1) outliers))
      else Line "No outliers detected."
  | Raise e => Line ("Error during outlier detection: " +:+ exn_str e)
  end.

(** ** A reader for comma-separated text *)

Definition comma : ascii := ","%char.
Definition newline : ascii := "010"%char.
Definition carriage_return : ascii := "013"%char.
Definition quote : ascii := "034"%char.

Definition is_space (c : ascii) : bool :=
  bool_decide (c = " "%char) || bool_decide (c = "009"%char).

(** A text of spaces and tabs only, the empty text included. *)
Fixpoint is_blank (s : string) : bool :=
  match s with
  | EmptyString => true
  | String c s' => is_space c && is_blank s'
  end.

(** A field as it stands in the file: between quotes or not, and its
    text. *)
Record wfield := mk_wfield {
  quoted : bool;
  text : string }.

#[global] Instance wfield_eq_dec : EqDecision wfield.
Proof. solve_decision. Defined.

(** Where the tokenizer is: at the start of a field, inside an unquoted
    field, inside quotes, after a quote seen inside quotes (the closing one,
    or the first of a doubled quote), or after a carriage return that ended
    a record. *)
Inductive tok_mode := FieldStart | InField | InQuoted | QuoteSeen | AfterCR.

#[global] Instance tok_mode_eq_dec : EqDecision tok_mode.
Proof. solve_decision. Defined.

Record tokenizer := mk_tok {
  mode : tok_mode;
  cur_field : string;
  cur_record : list wfield;
  done_records : list (list wfield) }.

Definition set_mode (m : tok_mode) (t : tokenizer) : tokenizer :=
  mk_tok m (cur_field t) (cur_record t) (done_records t).

(** The record being read, closed with the field being read. *)
Definition end_field (t : tokenizer) : list wfield :=
  cur_record t ++ [mk_wfield (bool_decide (mode t = QuoteSeen)) (cur_field t)].

Definition next_field (t : tokenizer) : tokenizer :=
  mk_tok FieldStart EmptyString (end_field t) (done_records t).

Definition next_record (m : tok_mode) (t : tokenizer) : tokenizer :=
  mk_tok m EmptyString [] (done_records t ++ [end_field t]).

Definition push (m : tok_mode) (c : ascii) (t : tokenizer) : tokenizer :=
  mk_tok m (cur_field t +:+ String c EmptyString) (cur_record t) (done_records t).

(** A character outside quotes: a comma ends the field, a line feed or a
    carriage return ends the record, anything else belongs to the field. *)
Definition delim (t : tokenizer) (c : ascii) : tokenizer :=
  if decide (c = comma) then next_field t
  else if decide (c = newline) then next_record FieldStart t
  else if decide (c = carriage_return) then next_record AfterCR t
  else push InField c t.

(** A character at the start of a field: a quote opens a quoted field. *)
Definition step_start (t : tokenizer) (c : ascii) : tokenizer :=
  if decide (c = quote) then set_mode InQuoted t else delim t c.

Definition step (t : tokenizer) (c : ascii) : tokenizer :=
  match mode t with
  | FieldStart => step_start t c
  | InField => delim t c
  | InQuoted =>
      if decide (c = quote) then set_mode QuoteSeen t else push InQuoted c t
  | QuoteSeen =>
      if decide (c = quote) then push InQuoted c t else delim t c
  | AfterCR =>
      if decide (c = newline) then set_mode FieldStart t else step_start t c
  end.

Fixpoint run (t : tokenizer) (s : string) : tokenizer :=
  match s with
  | EmptyString => t
  | String c s' => run (step t c) s'
  end.

(** The records of a text, or nothing when the text ends inside quotes. *)
Definition tokenize (s : string) : option (list (list wfield)) :=
  let t := run (mk_tok FieldStart EmptyString [] []) s in
  if decide (mode t = InQuoted) then None
  else Some (done_records t ++ [end_field t]).

(** A record read from a blank line: one unquoted field of spaces and
    tabs. *)
Definition blank_record (r : list wfield) : bool :=
  match r with
  | [f] => negb (quoted f) && is_blank (text f)
  | _ => false
  end.

(** Modelled from the spec: pandas' text reader behind [pd.read_csv], which
    is not part of the repository.  The spec has a delimited text file, a
    table of rows that map column names to scalars or the missing marker, and
    the failures Empty and ParseError.  Here: records end with a line feed
    or a carriage return and line feed, the last one also with the text;
    fields are separated by commas and may stand between quotes, where a
    doubled quote is a quote; blank lines are skipped; the first record left
    names the columns and every other record is a row; a text that ends
    inside quotes or a row longer than the header is a parse error, a
    shorter row is completed with empty fields; [conv] turns the text of a
    field into a cell and [infer] gives a column its dtype. *)
Definition csv_read_text (conv : string -> cell) (infer : list cell -> dtype)
    (s : string) : result DataFrame :=
  match tokenize s with
  | None => Raise (mk_exn ParserError "Error tokenizing data. C error: EOF inside string")
  | Some all =>
      match filter (fun r => blank_record r = false) all with
      | [] => Raise (mk_exn EmptyDataError "No columns to parse from file")
      | header :: body =>
          let names := map text header in
          if bool_decide (Forall (fun r => (length r <= length names)%nat) body) then
            Ok (mk_df (length body)
                  (imap (fun j nm =>
                           let cells :=
                             map (fun r => conv (text (nth j r (mk_wfield false EmptyString))))
                                 body in
                           mk_series nm (infer cells) cells)
                        names))
          else Raise (mk_exn ParserError "Error tokenizing data. C error: too many fields")
      end
  end.

Definition csv_pandas (conv : string -> cell) (infer : list cell -> dtype) : Pandas :=
  {| read_text := csv_read_text conv infer |}.

(** *** Writing a file *)

Fixpoint join (sep : ascii) (l : list string) : string :=
  match l with
  | [] => EmptyString
  | [f] => f
  | f :: l' => f +:+ String sep (join sep l')
  end.

(** Inside quotes every quote is doubled. *)
Fixpoint escape_quotes (s : string) : string :=
  match s with
  | EmptyString => EmptyString
  | String c s' =>
      if decide (c = quote) then String quote (String quote (escape_quotes s'))
      else String c (escape_quotes s')
  end.

Definition render_field (f : wfield) : string :=
  if quoted f then String quote (escape_quotes (text f) +:+ String quote EmptyString)
  else text f.

Definition render_record (r : list wfield) : string :=
  join comma (map render_field r).

(** The two ways a line ends. *)
Inductive eol := LF | CRLF.

Definition eol_text (e : eol) : string :=
  match e with
  | LF => String newline EmptyString
  | CRLF => String carriage_return (String newline EmptyString)
  end.

Fixpoint render_lines (e : eol) (ls : list string) : string :=
  match ls with
  | [] => EmptyString
  | [l] => l
  | l :: ls' => l +:+ eol_text e +:+ render_lines e ls'
  end.

(** The text of a file: one line per record, the lines separated by [e],
    and the last line ended by [e] when [final] is set. *)
Definition csv_file (e : eol) (final : bool) (records : list (list wfield)) : string :=
  render_lines e (map render_record records) +:+ (if final then eol_text e else EmptyString).

Fixpoint has_char (c : ascii) (s : string) : bool :=
  match s with
  | EmptyString => false
  | String c' s' => bool_decide (c' = c) || has_char c s'
  end.

(** A text that may stand outside quotes. *)
Definition plain (s : string) : Prop :=
  has_char comma s = false /\ has_char newline s = false /\
  has_char carriage_return s = false /\ has_char quote s = false.

(** A field is between quotes, or needs none. *)
Definition field_ok (f : wfield) : Prop := quoted f = true \/ plain (text f).

(** A well-formed file: a header of [M] fields, [M] at least one, and
    records of [M] fields each. *)
Definition csv_well_formed (M : nat) (header : list wfield) (recs : list (list wfield)) : Prop :=
  (1 <= M)%nat /\
  Forall (fun r => length r = M /\ Forall field_ok r) (header :: recs).

#[global] Instance plain_dec s : Decision (plain s).
Proof. unfold plain. apply _. Defined.

#[global] Instance field_ok_dec f : Decision (field_ok f).
Proof. unfold field_ok. apply _. Defined.

#[global] Instance csv_well_formed_dec M header recs : Decision (csv_well_formed M header recs).
Proof. unfold csv_well_formed. apply _. Defined.

(** The mode the tokenizer is in when it has read the whole of a field. *)
Definition field_end_mode (f : wfield) : tok_mode :=
  if quoted f then QuoteSeen
  else if decide (text f = EmptyString) then FieldStart else InField.

(** The tokenizer stands at the end of a field, outside quotes. *)
Definition at_field_end (t : tokenizer) : Prop :=
  mode t = FieldStart \/ mode t = InField \/ mode t = QuoteSeen.

(** The claim on the shape of a loaded file, as the specification words it:
    a well-formed file with [N] records of [M] fields loads as [N] rows and
    [M] columns. *)
Definition csv_shape_as_claimed : Prop :=
  forall (conv : string -> cell) (infer : list cell -> dtype) (st : state) (f : file)
         (e : eol) (final : bool) (M : nat) (header : list wfield)
         (recs : list (list wfield)),
    fs st !! file_path st = Some f ->
    readable f = true ->
    content f = csv_file e final (header :: recs) ->
    csv_well_formed M header recs ->
    exists df st',
      @load_data (csv_pandas conv infer) st = (Ok tt, st') /\
      data st' = Some df /\
      shape df = (length recs, M).

(** ** Instances to run the model on *)

(** A field of digits is an integer, an empty field is missing, anything
    else is text. *)
Fixpoint digits_value (acc : Z) (s : string) : option Z :=
  match s with
  | EmptyString => Some acc
  | String c s' =>
      let n := Z.of_N (N_of_ascii c) in
      if ((48 <=? n) && (n <=? 57))%Z then digits_value (10 * acc + (n - 48)) s' else None
  end.

Definition simple_conv (s : string) : cell :=
  if decide (s = EmptyString) then NaN
  else match digits_value 0 s with
       | Some z => Int z
       | None => Str s
       end.

Definition is_int (c : cell) : bool :=
  match c with
  | Int _ => true
  | _ => false
  end.

Definition simple_infer (cs : list cell) : dtype :=
  if forallb is_int cs then int64 else object_.

Definition simple_pandas : Pandas := csv_pandas simple_conv simple_infer.

(** A stand-in for scikit-learn.  The scaler refuses a frame without
    columns, as its input validation does; the forest keeps the seed it was
    fitted with and flags the row whose position is that seed modulo 7. *)
Definition toy_sklearn : Sklearn :=
  {| forest_model := Z;
     scaler_fit_transform := fun X =>
       match columns X with
       | [] => Raise (mk_exn ValueError "at least one array or dtype is required")
       | _ => Ok (mk_scaler (replicate (length (columns X)) (Some (Finite 0%Qc)))
                            (replicate (length (columns X)) (Some (Finite 1%Qc))),
                  replicate (index X)
                    (replicate (length (columns X)) (Some (Finite 0%Qc))))
       end;
     forest_fit := fun _ rng _ => Ok rng;
     forest_predict := fun m X =>
       Ok (imap (fun i _ => if bool_decide (Z.of_nat i = m `mod` 7) then -1 else 1) X) |}.

Definition world0 (files : gmap string file) : state :=
  mk_state "" None None [] [] 0 files.

(** The table of the spec's end-to-end example: five rows, two columns, one
    row repeated and one cell missing. *)
Definition example_df : DataFrame :=
  mk_df 5
    [ mk_series "a" int64 [Int 1; Int 2; Int 1; Int 3; Int 4];
      mk_series "b" object_ [Str "x"; Str "y"; Str "x"; NaN; Str "z"] ].

Definition unquoted (s : string) : wfield := mk_wfield false s.

Definition example_records : list (list wfield) :=
  map (map unquoted) [["1"; "x"]; ["2"; "y"]; ["1"; "x"]; ["3"; ""]; ["4"; "z"]].

Definition example_csv : string :=
  csv_file LF true (map unquoted ["a"; "b"] :: example_records).

(** Records written another way: fields between quotes, one with a comma
    in it and one with a quote. *)
Definition quoted_records : list (list wfield) :=
  [ [unquoted "1"; mk_wfield true "x, or so"];
    [mk_wfield true "2"; mk_wfield true ("say " +:+ String quote "y")];
    [unquoted "3"; unquoted ""] ].

Definition example_fs : gmap string file :=
  {[ "data.csv" := mk_file true example_csv;
     "empty.csv" := mk_file true "";
     "secret.csv" := mk_file false example_csv ]}.

(** ** What a whole run prints *)

(** What the missing-value check prints for a table, call by call. *)
Definition missing_prints (df : DataFrame) : list printed :=
  if decide (total_missing df = 0%nat) then [Line "No missing values detected."]
  else [Line "Warning: Missing values detected."; SeriesRepr (missing_counts df)].

(** What the duplicate check prints for a table, call by call. *)
Definition duplicate_prints (df : DataFrame) : list printed :=
  if decide (duplicate_count df = 0%nat) then [Line "No duplicate records detected."]
  else [Line "Warning: Duplicate records detected.";
        Line ("Number of duplicates: " +:+ pretty (duplicate_count df))].

(** The rows that [flags] leaves unmarked, in order: what stays of a table
    when the rows marked by [duplicated] are taken out. *)
Fixpoint unflagged (rs : list (list cell)) (flags : list bool) : list (list cell) :=
  match rs, flags with
  | r :: rs', b :: flags' =>
      if b then unflagged rs' flags' else r :: unflagged rs' flags'
  | _, _ => []
  end.

(** The line [main] prints when [run_checks] raised [e]. *)
Definition top_level_line (e : exn) : printed :=
  Line ("An error occurred while running data integrity checks: " +:+ exn_str e).

(** * Properties *)

(** ** Exceptions and handlers *)

Lemma issubclass_Exception (c : pyclass) : issubclass c Exception = true.
Proof. destruct c; reflexivity. Qed.

Lemma isinstance_Exception (e : exn) : isinstance e Exception = true.
Proof. apply issubclass_Exception. Qed.

(** A [try] with an [except Exception] clause whose handler only prints
    lets nothing out, whatever its body does. *)
Lemma try_except_Exception_print (body : M unit) (msg : exn -> printed) (st : state) :
  try_except body [(Exception, fun e => print (msg e))] st =
  match body st with
  | (Ok a, st') => (Ok a, st')
  | (Raise e, st') => (Ok tt, add_stdout (msg e) st')
  end.
Proof.
  unfold try_except. destruct (body st) as [[a|e] st']; [reflexivity|].
  simpl. rewrite isinstance_Exception. reflexivity.
Qed.

Lemma data_attr_Some (attr : string) (st : state) (df : DataFrame) :
  data st = Some df -> data_attr attr st = (Ok df, st).
Proof. intros Hd. unfold data_attr, bind, get, ret. rewrite Hd. reflexivity. Qed.

Lemma data_attr_None (attr : string) (st : state) :
  data st = None ->
  data_attr attr st =
  (Raise (mk_exn AttributeError ("'NoneType' object has no attribute '" +:+ attr +:+ "'")), st).
Proof. intros Hd. unfold data_attr, bind, get, raise. rewrite Hd. reflexivity. Qed.

(** ** Checks on a checker that never loaded *)

(** C10. On a checker whose [data] is still the initial [None], each of the
    three checks returns normally: the attribute error met inside is caught
    and reported in one line, and nothing else changes. *)
Theorem checks_without_data `{Sklearn} (st : state) (Hnone : data st = None) :
  check_missing_values st =
    (Ok tt, add_stdout (Line "Error checking missing values: 'NoneType' object has no attribute 'isnull'") st) /\
  check_duplicates st =
    (Ok tt, add_stdout (Line "Error checking duplicates: 'NoneType' object has no attribute 'duplicated'") st) /\
  check_outliers st =
    (Ok tt, add_stdout (Line "Error during outlier detection: 'NoneType' object has no attribute 'select_dtypes'") st).
Proof.
  repeat split.
  - unfold check_missing_values. rewrite try_except_Exception_print.
    unfold missing_values_body, bind. rewrite (data_attr_None _ _ Hnone). reflexivity.
  - unfold check_duplicates. rewrite try_except_Exception_print.
    unfold duplicates_body, bind. rewrite (data_attr_None _ _ Hnone). reflexivity.
  - unfold check_outliers. rewrite try_except_Exception_print.
    unfold outliers_body, outlier_labels, bind. rewrite (data_attr_None _ _ Hnone). reflexivity.
Qed.

Lemma checks_without_data_witness :
  data (__init__ "data.csv" (world0 example_fs)) = None /\
  stdout (snd (@check_outliers toy_sklearn (__init__ "data.csv" (world0 example_fs)))) =
    [Line "Error during outlier detection: 'NoneType' object has no attribute 'select_dtypes'"].
Proof.
  split; [reflexivity|].
  destruct (@checks_without_data toy_sklearn (__init__ "data.csv" (world0 example_fs)) eq_refl)
    as (_ & _ & ->).
  reflexivity.
Defined.

(** ** The loader *)

Lemma read_csv_eq `{Pandas} (path : string) (st : state) :
  read_csv path st =
  (match open_file path st with
   | Raise e => Raise e
   | Ok text =>
       if decide (text = "") then Raise (mk_exn EmptyDataError "No columns to parse from file")
       else read_text text
   end, add_read path st).
Proof.
  unfold read_csv, bind, modify, get, lift, raise. simpl.
  change (open_file path (add_read path st)) with (open_file path st).
  destruct (open_file path st) as [text|e]; [|reflexivity].
  destruct (decide (text = "")); reflexivity.
Qed.

Lemma load_data_eq `{Pandas} (st : state) :
  load_data st =
  match read_csv (file_path st) st with
  | (Ok df, st1) =>
      (Ok tt, add_stdout (Line "Data loaded successfully.") (set_data (Some df) st1))
  | (Raise e, st1) =>
      (Raise e, match loader_diagnostic e with
                | Some p => add_stdout p st1
                | None => st1
                end)
  end.
Proof.
  unfold load_data, try_except, bind at 1, get.
  destruct (read_csv (file_path st) st) as [[df|e] st1] eqn:Hr.
  - unfold bind, modify, print, modify. simpl. rewrite Hr. reflexivity.
  - unfold bind. simpl. rewrite Hr.
    destruct e as [c msg]. destruct c; reflexivity.
Qed.

(** The three checks are not reached when the loader raises. *)
Lemma run_checks_load_fails `{Pandas} `{Sklearn} (st st1 : state) (e : exn) :
  load_data st = (Raise e, st1) -> run_checks st = (Raise e, st1).
Proof. intros Hl. unfold run_checks, bind. rewrite Hl. reflexivity. Qed.

Lemma load_data_missing `{Pandas} (st : state) :
  fs st !! file_path st = None ->
  let e := mk_exn FileNotFoundError
             ("[Errno 2] No such file or directory: '" +:+ file_path st +:+ "'") in
  load_data st =
    (Raise e, add_stdout (Line ("Error: " +:+ exn_str e)) (add_read (file_path st) st)).
Proof.
  intros Hmiss e. rewrite load_data_eq, read_csv_eq. unfold open_file.
  rewrite Hmiss. reflexivity.
Qed.

(** C1. When the path names no file, [load_data] prints the diagnostic of
    its [FileNotFoundError] clause and raises that error again; [run_checks]
    stops there: the one line written is the loader's, [data] is as it was,
    and no check has printed anything. *)
Theorem missing_file_aborts `{Pandas} `{Sklearn} (st : state)
    (Hmiss : fs st !! file_path st = None) :
  let e := mk_exn FileNotFoundError
             ("[Errno 2] No such file or directory: '" +:+ file_path st +:+ "'") in
  let st' := add_stdout (Line ("Error: " +:+ exn_str e)) (add_read (file_path st) st) in
  load_data st = (Raise e, st') /\
  run_checks st = (Raise e, st') /\
  stdout st' = stdout st ++ [Line ("Error: " +:+ exn_str e)] /\
  data st' = data st.
Proof.
  intros e st'. pose proof (load_data_missing st Hmiss) as Hl.
  split; [exact Hl|]. split; [|split; reflexivity].
  apply run_checks_load_fails, Hl.
Qed.

Lemma missing_file_aborts_witness :
  fs (__init__ "nope.csv" (world0 example_fs)) !! "nope.csv" = None /\
  stdout (snd (@run_checks simple_pandas toy_sklearn (__init__ "nope.csv" (world0 example_fs)))) =
    [Line "Error: [Errno 2] No such file or directory: 'nope.csv'"].
Proof.
  split; [reflexivity|].
  destruct (@missing_file_aborts simple_pandas toy_sklearn
              (__init__ "nope.csv" (world0 example_fs)) eq_refl) as (_ & -> & _).
  reflexivity.
Defined.

(** C2, as the code has it.  [load_data] ends in one of these ways: the
    reader gave a frame, which is stored, and the confirmation is printed;
    or the reader raised, and the same exception leaves [load_data], after a
    diagnostic line when its class is [FileNotFoundError], [EmptyDataError]
    or [ParserError] and with nothing printed for any other class.  A
    readable file with no content raises [EmptyDataError]. *)
Theorem load_data_outcomes `{Pandas} (st : state) :
  let st0 := add_read (file_path st) st in
  let fails (e : exn) :=
    (Raise e, match loader_diagnostic e with
              | Some p => add_stdout p st0
              | None => st0
              end) in
  load_data st =
  match open_file (file_path st) st with
  | Raise e => fails e
  | Ok text =>
      if decide (text = "") then fails (mk_exn EmptyDataError "No columns to parse from file")
      else match read_text text with
           | Ok df => (Ok tt, add_stdout (Line "Data loaded successfully.")
                                (set_data (Some df) st0))
           | Raise e => fails e
           end
  end.
Proof.
  intros st0 fails. rewrite load_data_eq, read_csv_eq.
  destruct (open_file (file_path st) st) as [text|e]; [|reflexivity].
  destruct (decide (text = "")); [reflexivity|].
  destruct (read_text text); reflexivity.
Qed.

(** C2 as stated fails on a file that exists but cannot be read: the
    [PermissionError] of [open] matches none of the three clauses, so it
    leaves [load_data] with nothing printed. *)
Lemma loader_contract_fails :
  ~ @loader_contract simple_pandas (__init__ "secret.csv" (world0 example_fs)).
Proof.
  unfold loader_contract.
  assert (Hl : @load_data simple_pandas (__init__ "secret.csv" (world0 example_fs)) =
               (Raise (mk_exn PermissionError "[Errno 13] Permission denied: 'secret.csv'"),
                add_read "secret.csv" (__init__ "secret.csv" (world0 example_fs))))
    by (rewrite load_data_eq, read_csv_eq; reflexivity).
  rewrite Hl. simpl. intros [Hcls _].
  apply list_elem_of_In in Hcls. simpl in Hcls.
  intuition discriminate.
Qed.

(** At the top level the failure of the loader is reported once more and
    the script ends normally. *)
Lemma main_missing_file `{Pandas} `{Sklearn} (st : state) :
  fs st !! "path_to_your_dataset.csv" = None ->
  let msg := "[Errno 2] No such file or directory: 'path_to_your_dataset.csv'" in
  fst (main st) = Ok tt /\
  stdout (snd (main st)) =
    stdout st ++ [Line ("Error: " +:+ msg);
                  Line ("An error occurred while running data integrity checks: " +:+ msg)].
Proof.
  intros Hmiss msg. unfold main, bind, modify, try_except.
  rewrite (run_checks_load_fails _ _ _
             (load_data_missing (__init__ "path_to_your_dataset.csv" st) Hmiss)).
  simpl. rewrite <- app_assoc. split; reflexivity.
Qed.

(** ** Missing values *)

Lemma sum_bools_isnull (vs : list cell) :
  sum_bools (map cell_isnull vs) = length (filter (fun c => c = NaN) vs).
Proof.
  induction vs as [|c vs IH]; [reflexivity|].
  rewrite filter_cons. simpl. rewrite IH.
  destruct (decide (c = NaN)) as [->|Hc]; [reflexivity|].
  destruct c; simpl; congruence.
Qed.

Lemma frame_sum_isnull (df : DataFrame) :
  frame_sum (isnull df) = missing_counts df.
Proof.
  unfold frame_sum, isnull, missing_counts, missing_count.
  rewrite map_map. apply map_ext. intros s. f_equal. apply sum_bools_isnull.
Qed.

Lemma series_sum_missing_counts (df : DataFrame) :
  series_sum (missing_counts df) = total_missing df.
Proof.
  unfold missing_counts, total_missing.
  induction (columns df) as [|s l IH]; [reflexivity|].
  simpl. rewrite IH. reflexivity.
Qed.

(** C3. On a loaded table the missing-value check counts, column by column,
    the entries that are the missing marker.  With none in the whole table
    it prints the all-clear line; otherwise it prints the warning and then
    the series of counts, where each column [C] appears with the number of
    its missing entries. *)
Theorem missing_values_report (st : state) (df : DataFrame) (Hd : data st = Some df) :
  check_missing_values st =
    (Ok tt,
     if decide (total_missing df = 0%nat) then
       add_stdout (Line "No missing values detected.") st
     else
       add_stdout (SeriesRepr (missing_counts df))
         (add_stdout (Line "Warning: Missing values detected.") st)) /\
  (forall s, s ∈ columns df -> (name s, missing_count s) ∈ missing_counts df) /\
  map fst (missing_counts df) = map name (columns df).
Proof.
  split; [|split].
  - unfold check_missing_values. rewrite try_except_Exception_print.
    unfold missing_values_body, bind at 1. rewrite (data_attr_Some _ _ _ Hd).
    rewrite frame_sum_isnull, series_sum_missing_counts.
    destruct (decide (total_missing df = 0%nat)) as [Hz|Hnz].
    + rewrite Hz. reflexivity.
    + destruct (total_missing df) as [|k] eqn:Hk; [congruence|].
      simpl. unfold bind, print, modify. simpl.
      rewrite (data_attr_Some "isnull" (add_stdout _ st) df Hd).
      rewrite frame_sum_isnull. reflexivity.
  - intros s Hs. unfold missing_counts.
    apply (list_elem_of_fmap_2 (fun s => (name s, missing_count s))). exact Hs.
  - unfold missing_counts. rewrite map_map. reflexivity.
Qed.

Lemma missing_values_report_witness :
  data (set_data (Some example_df) (world0 example_fs)) = Some example_df /\
  stdout (snd (check_missing_values (set_data (Some example_df) (world0 example_fs)))) =
    [Line "Warning: Missing values detected."; SeriesRepr [("a", 0%nat); ("b", 1%nat)]].
Proof.
  split; [reflexivity|].
  destruct (missing_values_report (set_data (Some example_df) (world0 example_fs))
              example_df eq_refl) as (-> & _).
  reflexivity.
Defined.

(** ** Duplicate rows *)

Lemma any_sum_bools (bs : list bool) :
  any bs = negb (bool_decide (sum_bools bs = 0%nat)).
Proof.
  induction bs as [|[] bs IH]; try reflexivity.
  simpl. exact IH.
Qed.

(** A row is marked exactly when it occurs among the rows before it. *)
Lemma duplicated_from_spec (rs seen pre : list (list cell)) :
  (forall r, r ∈ seen <-> r ∈ pre) ->
  duplicated_from seen rs = imap (fun k r => bool_decide (r ∈ pre ++ take k rs)) rs.
Proof.
  revert seen pre. induction rs as [|r rs IH]; intros seen pre Hseen; [reflexivity|].
  simpl. rewrite app_nil_r.
  assert (Htail : forall seen', (forall x, x ∈ seen' <-> x ∈ pre ++ [r]) ->
            duplicated_from seen' rs =
            imap ((fun k r0 => bool_decide (r0 ∈ pre ++ take k (r :: rs))) ∘ S) rs).
  { intros seen' Hs'. rewrite (IH seen' (pre ++ [r]) Hs').
    apply imap_ext. intros k x _. simpl. rewrite <- app_assoc. reflexivity. }
  destruct (bool_decide (r ∈ seen)) eqn:Hb.
  - rewrite <- (bool_decide_ext _ _ (Hseen r)), Hb. f_equal.
    apply Htail. intros x. rewrite elem_of_app, list_elem_of_singleton, <- Hseen.
    apply bool_decide_eq_true in Hb. split; [auto|]. intros [?| ->]; assumption.
  - rewrite <- (bool_decide_ext _ _ (Hseen r)), Hb. f_equal.
    apply Htail. intros x. rewrite elem_of_cons, elem_of_app, list_elem_of_singleton, <- Hseen.
    tauto.
Qed.

Lemma row_eq_same_row (df : DataFrame) (i j : nat) :
  row df i = row df j <-> same_row df i j.
Proof.
  unfold row, same_row. induction (columns df) as [|s l IH]; simpl.
  - split; [constructor|reflexivity].
  - rewrite Forall_cons, <- IH. split.
    + intros Heq. injection Heq. auto.
    + intros [-> ->]. reflexivity.
Qed.

Lemma rows_lookup (df : DataFrame) (k : nat) :
  (k < index df)%nat -> rows df !! k = Some (row df k).
Proof.
  intros Hk. unfold rows. rewrite list_lookup_fmap, lookup_seq_lt by exact Hk. reflexivity.
Qed.

Lemma row_in_earlier (df : DataFrame) (k : nat) :
  (k < index df)%nat ->
  row df k ∈ take k (rows df) <-> duplicate_row df k.
Proof.
  intros Hk. unfold duplicate_row. rewrite Exists_exists. split.
  - intros Hin. apply list_elem_of_lookup in Hin as [j Hj].
    assert (Hjk : (j < k)%nat).
    { apply lookup_lt_Some in Hj. rewrite length_take in Hj. lia. }
    rewrite lookup_take_lt in Hj by exact Hjk.
    rewrite rows_lookup in Hj by lia. injection Hj as Hj.
    exists j. split; [apply elem_of_seq; lia|]. apply row_eq_same_row. exact Hj.
  - intros (j & Hj & Hsame). apply elem_of_seq in Hj.
    apply list_elem_of_lookup. exists j.
    rewrite lookup_take_lt by lia. rewrite rows_lookup by lia.
    f_equal. apply row_eq_same_row. exact Hsame.
Qed.

Lemma duplicated_eq (df : DataFrame) :
  duplicated df = map (fun k => bool_decide (duplicate_row df k)) (seq 0 (index df)).
Proof.
  unfold duplicated. rewrite (duplicated_from_spec (rows df) [] []) by tauto.
  apply list_eq. intros k.
  rewrite list_lookup_imap, list_lookup_fmap.
  destruct (decide (k < index df)%nat) as [Hk|Hk].
  - rewrite rows_lookup, lookup_seq_lt by exact Hk. simpl. f_equal.
    apply bool_decide_ext. apply row_in_earlier. exact Hk.
  - rewrite (lookup_ge_None_2 (rows df)), (lookup_ge_None_2 (seq _ _)); [reflexivity| |].
    + rewrite length_seq. lia.
    + unfold rows. rewrite length_map, length_seq. lia.
Qed.

Lemma sum_bools_decide {A} (P : A -> Prop) `{forall x, Decision (P x)} (l : list A) :
  sum_bools (map (fun x => bool_decide (P x)) l) = length (filter P l).
Proof.
  induction l as [|x l IH]; [reflexivity|].
  rewrite filter_cons. simpl. rewrite IH.
  destruct (decide (P x)) as [Hp|Hp].
  - rewrite (bool_decide_eq_true_2 _ Hp). reflexivity.
  - rewrite (bool_decide_eq_false_2 _ Hp). reflexivity.
Qed.

Lemma sum_duplicated (df : DataFrame) :
  sum_bools (duplicated df) = duplicate_count df.
Proof. rewrite duplicated_eq. apply sum_bools_decide. Qed.

(** C4. On a loaded table the duplicate check takes two rows for
    duplicates exactly when they agree in every column, counts the rows that
    repeat a row above them and, when that count [d] is not zero, prints the
    warning and [d]; with no such row it prints the all-clear line. *)
Theorem duplicates_report (st : state) (df : DataFrame) (Hd : data st = Some df) :
  check_duplicates st =
    (Ok tt,
     if decide (duplicate_count df = 0%nat) then
       add_stdout (Line "No duplicate records detected.") st
     else
       add_stdout (Line ("Number of duplicates: " +:+ pretty (duplicate_count df)))
         (add_stdout (Line "Warning: Duplicate records detected.") st)) /\
  (forall i, duplicate_row df i <->
             exists j, (j < i)%nat /\
                       forall s, s ∈ columns df -> values s !!! j = values s !!! i) /\
  (forall i j, row df i = row df j <->
               forall s, s ∈ columns df -> values s !!! i = values s !!! j).
Proof.
  split; [|split].
  - unfold check_duplicates. rewrite try_except_Exception_print.
    unfold duplicates_body, bind at 1. rewrite (data_attr_Some _ _ _ Hd).
    rewrite any_sum_bools, sum_duplicated.
    destruct (decide (duplicate_count df = 0%nat)) as [Hz|Hnz].
    + rewrite (bool_decide_eq_true_2 _ Hz). reflexivity.
    + rewrite (bool_decide_eq_false_2 _ Hnz). simpl.
      unfold bind, print, modify. simpl.
      rewrite (data_attr_Some "duplicated" (add_stdout _ st) df Hd).
      rewrite sum_duplicated. reflexivity.
  - intros i. unfold duplicate_row, same_row. rewrite Exists_exists. split.
    + intros (j & Hj & Hsame). apply elem_of_seq in Hj. exists j. split; [lia|].
      apply Forall_forall. exact Hsame.
    + intros (j & Hj & Hsame). exists j. split; [apply elem_of_seq; lia|].
      apply Forall_forall. exact Hsame.
  - intros i j. rewrite row_eq_same_row. unfold same_row. apply Forall_forall.
Qed.

Lemma duplicates_report_witness :
  data (set_data (Some example_df) (world0 example_fs)) = Some example_df /\
  stdout (snd (check_duplicates (set_data (Some example_df) (world0 example_fs)))) =
    [Line "Warning: Duplicate records detected."; Line "Number of duplicates: 1"].
Proof.
  split; [reflexivity|].
  destruct (duplicates_report (set_data (Some example_df) (world0 example_fs))
              example_df eq_refl) as (-> & _).
  reflexivity.
Defined.

(** ** What a check may change *)

Lemma only_prints_refl (st : state) : only_prints st st.
Proof. unfold only_prints. repeat split; reflexivity. Qed.

Lemma only_prints_trans (st1 st2 st3 : state) :
  only_prints st1 st2 -> only_prints st2 st3 -> only_prints st1 st3.
Proof.
  unfold only_prints. intros (?&?&?&?&?&?) (?&?&?&?&?&?).
  repeat split; try congruence. etrans; eassumption.
Qed.

Lemma only_prints_add_stdout (p : printed) (st st' : state) :
  only_prints st st' -> only_prints st (add_stdout p st').
Proof.
  unfold only_prints. intros (?&?&?&?&?&?). repeat split; try assumption.
  simpl. etrans; [eassumption|]. apply prefix_app_r. reflexivity.
Qed.

Lemma only_prints_set_scaler (s : option scaler_params) (st st' : state) :
  only_prints st st' -> only_prints st (set_scaler s st').
Proof. unfold only_prints. intros (?&?&?&?&?&?). repeat split; assumption. Qed.

Create HintDb frame.

#[local] Hint Resolve only_prints_refl only_prints_add_stdout only_prints_set_scaler : frame.

Lemma data_attr_frame (attr : string) (st st' : state) (r : result DataFrame) :
  data_attr attr st = (r, st') -> st' = st.
Proof.
  unfold data_attr, bind, get, ret, raise. destruct (data st); congruence.
Qed.

Lemma missing_values_body_frame (st st' : state) (r : result unit) :
  missing_values_body st = (r, st') -> only_prints st st'.
Proof.
  destruct (data st) as [df|] eqn:Hd.
  - unfold missing_values_body, bind at 1. rewrite (data_attr_Some _ _ _ Hd).
    case_match.
    + unfold bind, print, modify. simpl.
      rewrite (data_attr_Some "isnull" (add_stdout _ st) df Hd).
      intros [= <- <-]. auto with frame.
    + unfold print, modify. intros [= <- <-]. auto with frame.
  - unfold missing_values_body, bind. rewrite (data_attr_None _ _ Hd).
    intros [= <- <-]. auto with frame.
Qed.

Lemma duplicates_body_frame (st st' : state) (r : result unit) :
  duplicates_body st = (r, st') -> only_prints st st'.
Proof.
  destruct (data st) as [df|] eqn:Hd.
  - unfold duplicates_body, bind at 1. rewrite (data_attr_Some _ _ _ Hd).
    case_match.
    + unfold bind, print, modify. simpl.
      rewrite (data_attr_Some "duplicated" (add_stdout _ st) df Hd).
      intros [= <- <-]. auto with frame.
    + unfold print, modify. intros [= <- <-]. auto with frame.
  - unfold duplicates_body, bind. rewrite (data_attr_None _ _ Hd).
    intros [= <- <-]. auto with frame.
Qed.

(** The outlier pipeline on a loaded table, call by call: the scaler is
    refitted from the numeric columns; the forest is built with
    contamination 0.01 and fitted from seed 42 on the scaled rows, which it
    then labels. *)
Lemma outlier_labels_eq `{Sklearn} (st : state) (df : DataFrame) :
  data st = Some df ->
  outlier_labels st =
  match scaler_fit_transform (select_dtypes_number df) with
  | Raise e => (Raise e, set_scaler None st)
  | Ok (p, X) =>
      (match forest_fit (mk_forest (1 # 100) (Some 42)) 42 X with
       | Raise e => Raise e
       | Ok m => forest_predict m X
       end, set_scaler (Some p) st)
  end.
Proof.
  intros Hd. unfold outlier_labels, bind at 1. rewrite (data_attr_Some _ _ _ Hd).
  unfold StandardScaler_fit_transform, IsolationForest_fit, check_random_state.
  unfold bind, modify, lift, ret. simpl.
  destruct (scaler_fit_transform (select_dtypes_number df)) as [[p X]|e]; [|reflexivity].
  simpl. destruct (forest_fit _ 42 X); reflexivity.
Qed.

Lemma outlier_labels_frame `{Sklearn} (st st' : state) (r : result (list Z)) :
  outlier_labels st = (r, st') -> only_prints st st'.
Proof.
  destruct (data st) as [df|] eqn:Hd.
  - rewrite (outlier_labels_eq st df Hd).
    destruct (scaler_fit_transform _) as [[p X]|e]; intros [= <- <-]; auto with frame.
  - unfold outlier_labels, bind. rewrite (data_attr_None _ _ Hd).
    intros [= <- <-]. auto with frame.
Qed.

Lemma outliers_body_frame `{Sklearn} (st st' : state) (r : result unit) :
  outliers_body st = (r, st') -> only_prints st st'.
Proof.
  unfold outliers_body, bind, print, modify.
  destruct (outlier_labels st) as [[l|e] st1] eqn:Hl.
  - apply outlier_labels_frame in Hl.
    case_match; intros [= <- <-]; auto with frame.
  - apply outlier_labels_frame in Hl. intros [= <- <-]. exact Hl.
Qed.

(** A check built as [try: body except Exception as e: print(...)] returns
    normally when its body only prints. *)
Lemma check_returns (body : M unit) (msg : exn -> printed) (st : state) :
  (forall r st', body st = (r, st') -> only_prints st st') ->
  exists st', try_except body [(Exception, fun e => print (msg e))] st = (Ok tt, st') /\
              only_prints st st'.
Proof.
  intros Hframe. rewrite try_except_Exception_print.
  destruct (body st) as [[[]|e] st1].
  - exists st1. split; [reflexivity|]. apply (Hframe _ _ eq_refl).
  - exists (add_stdout (msg e) st1). split; [reflexivity|].
    apply only_prints_add_stdout, (Hframe _ _ eq_refl).
Qed.

Lemma check_missing_values_returns (st : state) :
  exists st', check_missing_values st = (Ok tt, st') /\ only_prints st st'.
Proof. apply check_returns. intros r st'. apply missing_values_body_frame. Qed.

Lemma check_duplicates_returns (st : state) :
  exists st', check_duplicates st = (Ok tt, st') /\ only_prints st st'.
Proof. apply check_returns. intros r st'. apply duplicates_body_frame. Qed.

Lemma check_outliers_returns `{Sklearn} (st : state) :
  exists st', check_outliers st = (Ok tt, st') /\ only_prints st st'.
Proof. apply check_returns. intros r st'. apply outliers_body_frame. Qed.

Lemma outlier_labels_scaler_only `{Sklearn} (st st' : state) (r : result (list Z)) :
  outlier_labels st = (r, st') -> exists sc, st' = set_scaler sc st.
Proof.
  destruct (data st) as [df|] eqn:Hd.
  - rewrite (outlier_labels_eq st df Hd).
    destruct (scaler_fit_transform _) as [[p X]|e]; intros [= <- <-]; eauto.
  - unfold outlier_labels, bind. rewrite (data_attr_None _ _ Hd).
    intros [= <- <-]. exists (scaler st). destruct st; reflexivity.
Qed.

Lemma outliers_body_raises `{Sklearn} (st st1 : state) (e : exn) :
  outliers_body st = (Raise e, st1) ->
  outlier_labels st = (Raise e, st1) /\ stdout st1 = stdout st.
Proof.
  unfold outliers_body, bind, print, modify.
  destruct (outlier_labels st) as [[l|e'] st2] eqn:Hl.
  - case_match; discriminate.
  - intros [= <- <-]. split; [reflexivity|].
    apply outlier_labels_scaler_only in Hl as [sc ->]. reflexivity.
Qed.

(** ** Exceptions inside the checks *)

(** C5. Whatever the state, and whatever scikit-learn does, each of the
    three checks returns normally and keeps everything printed before it.
    An exception raised by the statements inside a check is handled at that
    check: its message is printed and nothing is raised.  For the outlier
    check (a frame without numeric columns, refused by the scaler, is one
    case) the failure adds its line after the earlier reports, and a run
    whose load succeeded always returns normally. *)
Theorem checks_never_propagate `{Pandas} `{Sklearn} (st : state) :
  ((exists st', check_missing_values st = (Ok tt, st') /\ only_prints st st') /\
   (exists st', check_duplicates st = (Ok tt, st') /\ only_prints st st') /\
   (exists st', check_outliers st = (Ok tt, st') /\ only_prints st st')) /\
  ((forall e st1, missing_values_body st = (Raise e, st1) ->
      check_missing_values st =
        (Ok tt, add_stdout (Line ("Error checking missing values: " +:+ exn_str e)) st1)) /\
   (forall e st1, duplicates_body st = (Raise e, st1) ->
      check_duplicates st =
        (Ok tt, add_stdout (Line ("Error checking duplicates: " +:+ exn_str e)) st1)) /\
   (forall e st1, outliers_body st = (Raise e, st1) ->
      check_outliers st =
        (Ok tt, add_stdout (Line ("Error during outlier detection: " +:+ exn_str e)) st1) /\
      stdout (snd (check_outliers st)) =
        stdout st ++ [Line ("Error during outlier detection: " +:+ exn_str e)])) /\
  (forall st1, load_data st = (Ok tt, st1) ->
     exists st', run_checks st = (Ok tt, st') /\ stdout st1 `prefix_of` stdout st').
Proof.
  split; [|split].
  - split; [apply check_missing_values_returns|].
    split; [apply check_duplicates_returns|apply check_outliers_returns].
  - split; [|split].
    + intros e st1 Hb. unfold check_missing_values.
      rewrite try_except_Exception_print, Hb. reflexivity.
    + intros e st1 Hb. unfold check_duplicates.
      rewrite try_except_Exception_print, Hb. reflexivity.
    + intros e st1 Hb.
      assert (Hc : check_outliers st =
                 (Ok tt, add_stdout (Line ("Error during outlier detection: " +:+ exn_str e)) st1)).
      { unfold check_outliers. rewrite try_except_Exception_print, Hb. reflexivity. }
      split; [exact Hc|]. rewrite Hc. simpl.
      apply outliers_body_raises in Hb as [_ ->]. reflexivity.
  - intros st1 Hl.
    destruct (check_missing_values_returns st1) as (st2 & Hm & F2).
    destruct (check_duplicates_returns st2) as (st3 & Hdup & F3).
    destruct (check_outliers_returns st3) as (st4 & Ho & F4).
    exists st4. split.
    + unfold run_checks, bind. rewrite Hl, Hm, Hdup. exact Ho.
    + pose proof (only_prints_trans _ _ _ (only_prints_trans _ _ _ F2 F3) F4) as F.
      apply F.
Qed.

(** ** One load, and a table no check changes *)

Lemma load_data_Ok `{Pandas} (st st1 : state) :
  load_data st = (Ok tt, st1) ->
  exists df, fst (read_csv (file_path st) st) = Ok df /\
             st1 = add_stdout (Line "Data loaded successfully.")
                     (set_data (Some df) (add_read (file_path st) st)).
Proof.
  rewrite load_data_eq.
  destruct (read_csv (file_path st) st) as [[df|e] st0] eqn:Hr; [|discriminate].
  intros [= <-]. exists df. split; [reflexivity|].
  rewrite read_csv_eq in Hr. injection Hr as _ <-. reflexivity.
Qed.

Lemma load_data_read_log `{Pandas} (st : state) :
  read_log (snd (load_data st)) = read_log st ++ [file_path st].
Proof.
  rewrite load_data_eq, read_csv_eq.
  destruct (match open_file _ _ with Ok _ => _ | Raise _ => _ end) as [df|e]; [reflexivity|].
  simpl. destruct (loader_diagnostic e); reflexivity.
Qed.

(** C8. In a run whose load succeeds, [pd.read_csv] is called once, on the
    checker's path and before the first check; the frame it returned is what
    [data] holds when each of the three checks starts and when the run ends,
    and no check reads a file. *)
Theorem table_loaded_once_and_kept `{Pandas} `{Sklearn} (st st1 : state)
    (Hload : load_data st = (Ok tt, st1)) :
  exists df st2 st3 st4,
    fst (read_csv (file_path st) st) = Ok df /\
    check_missing_values st1 = (Ok tt, st2) /\
    check_duplicates st2 = (Ok tt, st3) /\
    check_outliers st3 = (Ok tt, st4) /\
    run_checks st = (Ok tt, st4) /\
    (data st1 = Some df /\ data st2 = Some df /\ data st3 = Some df /\ data st4 = Some df) /\
    (read_log st1 = read_log st ++ [file_path st] /\
     read_log st2 = read_log st1 /\ read_log st3 = read_log st1 /\ read_log st4 = read_log st1).
Proof.
  destruct (load_data_Ok st st1 Hload) as (df & Hread & Hst1).
  destruct (check_missing_values_returns st1) as (st2 & Hm & F2).
  destruct (check_duplicates_returns st2) as (st3 & Hdup & F3).
  destruct (check_outliers_returns st3) as (st4 & Ho & F4).
  pose proof (only_prints_trans _ _ _ F2 F3) as F13.
  pose proof (only_prints_trans _ _ _ F13 F4) as F14.
  destruct F2 as (_ & D2 & R2 & _), F13 as (_ & D3 & R3 & _), F14 as (_ & D4 & R4 & _).
  assert (D1 : data st1 = Some df) by (rewrite Hst1; reflexivity).
  exists df, st2, st3, st4.
  split; [exact Hread|]. split; [exact Hm|]. split; [exact Hdup|]. split; [exact Ho|].
  split; [unfold run_checks, bind; rewrite Hload, Hm, Hdup; exact Ho|].
  split; [repeat split; congruence|].
  split; [rewrite Hst1; reflexivity|]. repeat split; assumption.
Qed.

Lemma table_loaded_once_and_kept_witness :
  let st := __init__ "data.csv" (world0 example_fs) in
  let st' := snd (@run_checks simple_pandas toy_sklearn st) in
  @load_data simple_pandas st =
    (Ok tt, add_stdout (Line "Data loaded successfully.")
              (set_data (Some example_df) (add_read "data.csv" st))) /\
  data st' = Some example_df /\ read_log st' = ["data.csv"].
Proof.
  intros st st'.
  assert (Hl : @load_data simple_pandas st =
               (Ok tt, add_stdout (Line "Data loaded successfully.")
                         (set_data (Some example_df) (add_read "data.csv" st))))
    by reflexivity.
  split; [exact Hl|].
  destruct (@table_loaded_once_and_kept simple_pandas toy_sklearn st _ Hl)
    as (df & st2 & st3 & st4 & _ & _ & _ & _ & Hrun & (D1 & _ & _ & D4) & (R1 & _ & _ & R4)).
  subst st'. rewrite Hrun. simpl. split.
  - rewrite D4, <- D1. reflexivity.
  - rewrite R4, R1. reflexivity.
Defined.

(** ** The outlier check *)

Lemma check_outliers_eq `{Sklearn} (st : state) :
  check_outliers st =
  (Ok tt, add_stdout (outlier_report (fst (outlier_labels st))) (snd (outlier_labels st))).
Proof.
  unfold check_outliers. rewrite try_except_Exception_print.
  unfold outliers_body, bind, print, modify.
  destruct (outlier_labels st) as [[l|e] st1]; [|reflexivity].
  simpl. destruct (0 <? count_eq (-1) l)%nat; reflexivity.
Qed.

Lemma count_eq_le (v : Z) (l : list Z) : (count_eq v l <= length l)%nat.
Proof. unfold count_eq. apply length_filter. Qed.

(** When the scaler returns one scaled row per row of the frame and the
    forest one label per row it is given, the rows flagged are at most the
    rows of the table. *)
Lemma outlier_count_bounds `{Sklearn}
    (Hscale : forall X p Y, scaler_fit_transform X = Ok (p, Y) -> length Y = index X)
    (Hpredict : forall m X l, forest_predict m X = Ok l -> length l = length X)
    (st st' : state) (df : DataFrame) (l : list Z) :
  data st = Some df ->
  outlier_labels st = (Ok l, st') ->
  (0 <= count_eq (-1) l <= index df)%nat.
Proof.
  intros Hd. rewrite (outlier_labels_eq st df Hd).
  destruct (scaler_fit_transform _) as [[p X]|e] eqn:Hs; [|discriminate].
  destruct (forest_fit _ 42 X) as [m|e]; [|discriminate].
  intros [= Hl _]. apply Hpredict in Hl. apply Hscale in Hs. simpl in Hs.
  pose proof (count_eq_le (-1) l). lia.
Qed.

(** C7. The outlier check of a loaded table is a function of the table
    alone: the forest is always built with contamination 0.01 and seed 42, so
    neither numpy's global generator nor an earlier fit of the scaler nor
    anything printed before has a part in it.  Two runs on the same table
    give the same labels, hence the same flagged rows and count, print the
    same line and leave the same fit in the scaler. *)
Theorem outliers_deterministic `{Sklearn} (st1 st2 : state) (df : DataFrame)
    (H1 : data st1 = Some df) (H2 : data st2 = Some df) :
  fst (outlier_labels st1) = fst (outlier_labels st2) /\
  fst (check_outliers st1) = fst (check_outliers st2) /\
  scaler (snd (check_outliers st1)) = scaler (snd (check_outliers st2)) /\
  exists line, stdout (snd (check_outliers st1)) = stdout st1 ++ [line] /\
               stdout (snd (check_outliers st2)) = stdout st2 ++ [line].
Proof.
  rewrite !check_outliers_eq.
  rewrite (outlier_labels_eq st1 df H1), (outlier_labels_eq st2 df H2).
  destruct (scaler_fit_transform (select_dtypes_number df)) as [[p X]|e]; simpl.
  - repeat split. eexists. split; reflexivity.
  - repeat split. eexists. split; reflexivity.
Qed.

Lemma outliers_deterministic_witness :
  let st1 := set_data (Some example_df) (world0 example_fs) in
  let st2 := set_np_random 2024
               (add_stdout (Line "earlier") (snd (@check_outliers toy_sklearn st1))) in
  data st1 = Some example_df /\ data st2 = Some example_df /\
  fst (@outlier_labels toy_sklearn st1) = fst (@outlier_labels toy_sklearn st2).
Proof.
  intros st1 st2.
  split; [reflexivity|]. split; [reflexivity|].
  exact (proj1 (@outliers_deterministic toy_sklearn st1 st2 example_df eq_refl eq_refl)).
Defined.

(** ** The reader on well-formed text *)

Lemma append_cons (x : ascii) (a b : string) :
  String x a +:+ b = String x (a +:+ b).
Proof. reflexivity. Qed.

Lemma run_app (t : tokenizer) (a b : string) :
  run t (a +:+ b) = run (run t a) b.
Proof.
  revert t. induction a as [|c a IH]; intros t; [reflexivity|].
  rewrite append_cons. simpl. apply IH.
Qed.

Lemma append_snoc (a : string) (c : ascii) (s : string) :
  (a +:+ String c EmptyString) +:+ s = a +:+ String c s.
Proof. induction a as [|x a IH]; [reflexivity|]. rewrite !append_cons, IH. reflexivity. Qed.

Lemma append_empty (a : string) : a +:+ EmptyString = a.
Proof. induction a as [|x a IH]; [reflexivity|]. rewrite append_cons, IH. reflexivity. Qed.

Lemma plain_cons (c : ascii) (s : string) :
  plain (String c s) ->
  (c <> comma /\ c <> newline /\ c <> carriage_return /\ c <> quote) /\ plain s.
Proof.
  unfold plain. simpl. intros (H1 & H2 & H3 & H4).
  apply orb_false_elim in H1 as [C1 P1]. apply orb_false_elim in H2 as [C2 P2].
  apply orb_false_elim in H3 as [C3 P3]. apply orb_false_elim in H4 as [C4 P4].
  apply bool_decide_eq_false in C1, C2, C3, C4. repeat split; assumption.
Qed.

Lemma delim_plain (t : tokenizer) (c : ascii) :
  c <> comma -> c <> newline -> c <> carriage_return ->
  delim t c = push InField c t.
Proof.
  intros H1 H2 H3. unfold delim.
  destruct (decide (c = comma)); [contradiction|].
  destruct (decide (c = newline)); [contradiction|].
  destruct (decide (c = carriage_return)); [contradiction|]. reflexivity.
Qed.

Lemma run_in_field (s acc : string) (rec : list wfield) (out : list (list wfield)) :
  plain s ->
  run (mk_tok InField acc rec out) s = mk_tok InField (acc +:+ s) rec out.
Proof.
  revert acc. induction s as [|c s IH]; intros acc Hs; simpl.
  - rewrite append_empty. reflexivity.
  - apply plain_cons in Hs as [(H1 & H2 & H3 & _) Hs].
    unfold step. simpl. rewrite delim_plain by assumption. unfold push. simpl.
    rewrite (IH _ Hs), append_snoc. reflexivity.
Qed.

Lemma run_unquoted (s : string) (rec : list wfield) (out : list (list wfield)) :
  plain s ->
  run (mk_tok FieldStart EmptyString rec out) s =
  mk_tok (field_end_mode (mk_wfield false s)) s rec out.
Proof.
  destruct s as [|c s]; [reflexivity|]. intros Hs.
  apply plain_cons in Hs as [(H1 & H2 & H3 & H4) Hs].
  simpl. unfold step, step_start. simpl.
  destruct (decide (c = quote)); [contradiction|].
  rewrite delim_plain by assumption. unfold push. simpl.
  rewrite (run_in_field _ _ _ _ Hs). reflexivity.
Qed.

Lemma run_in_quoted (s acc : string) (rec : list wfield) (out : list (list wfield)) :
  run (mk_tok InQuoted acc rec out) (escape_quotes s) = mk_tok InQuoted (acc +:+ s) rec out.
Proof.
  revert acc. induction s as [|c s IH]; intros acc; simpl.
  - rewrite append_empty. reflexivity.
  - destruct (decide (c = quote)) as [->|Hc]; simpl.
    + unfold step at 2. simpl. unfold step at 1. simpl.
      unfold push. simpl. rewrite IH, append_snoc. reflexivity.
    + unfold step at 1. simpl. destruct (decide (c = quote)); [contradiction|].
      unfold push. simpl. rewrite IH, append_snoc. reflexivity.
Qed.

(** Reading a written field from its start leaves its text in the
    tokenizer, at the end of the field. *)
Lemma run_field (f : wfield) (rec : list wfield) (out : list (list wfield)) :
  field_ok f ->
  run (mk_tok FieldStart EmptyString rec out) (render_field f) =
  mk_tok (field_end_mode f) (text f) rec out.
Proof.
  destruct f as [[] s]; unfold field_ok, render_field; simpl.
  - intros _. unfold step at 1, step_start. simpl. unfold set_mode. simpl.
    rewrite run_app, run_in_quoted. reflexivity.
  - intros [Hq|Hs]; [discriminate|]. apply run_unquoted, Hs.
Qed.

Lemma end_field_written (f : wfield) (rec : list wfield) (out : list (list wfield)) :
  end_field (mk_tok (field_end_mode f) (text f) rec out) = rec ++ [f].
Proof.
  unfold end_field, field_end_mode. simpl. destruct f as [[] s]; simpl; [reflexivity|].
  destruct (decide (s = EmptyString)); reflexivity.
Qed.

Lemma at_field_end_written (f : wfield) (rec : list wfield) (out : list (list wfield)) :
  at_field_end (mk_tok (field_end_mode f) (text f) rec out).
Proof.
  unfold at_field_end, field_end_mode. simpl. destruct (quoted f); [tauto|].
  destruct (decide _); tauto.
Qed.

Lemma step_comma (t : tokenizer) :
  at_field_end t -> step t comma = next_field t.
Proof. unfold step, step_start. intros [->|[->| ->]]; reflexivity. Qed.

(** A line end after a field closes the record, whichever of the two it
    is. *)
Lemma run_eol (e : eol) (t : tokenizer) :
  at_field_end t ->
  run t (eol_text e) = mk_tok FieldStart EmptyString [] (done_records t ++ [end_field t]).
Proof.
  intros Ht. destruct e; simpl.
  - unfold step, step_start. destruct Ht as [->|[->| ->]]; reflexivity.
  - unfold step at 2, step_start. destruct Ht as [->|[->| ->]]; reflexivity.
Qed.

(** Reading a written record leaves its fields in the tokenizer, after the
    fields [rec] read before on the same line. *)
Lemma run_record (r : list wfield) (f : wfield) (rec : list wfield)
    (out : list (list wfield)) :
  Forall field_ok (f :: r) ->
  let t := run (mk_tok FieldStart EmptyString rec out) (render_record (f :: r)) in
  at_field_end t /\ end_field t = rec ++ f :: r /\ done_records t = out.
Proof.
  revert f rec. induction r as [|g r IH]; intros f rec Hok.
  - apply Forall_cons in Hok as [Hf _]. unfold render_record. simpl.
    rewrite (run_field f rec out Hf).
    split; [apply at_field_end_written|]. split; [apply end_field_written|reflexivity].
  - apply Forall_cons in Hok as [Hf Hok].
    change (render_record (f :: g :: r))
      with (render_field f +:+ String comma (render_record (g :: r))).
    rewrite run_app, (run_field f rec out Hf). simpl.
    rewrite step_comma by apply at_field_end_written.
    unfold next_field. rewrite end_field_written. simpl.
    destruct (IH g (rec ++ [f]) Hok) as (Hend & Hfields & Hdone).
    split; [exact Hend|]. split; [|exact Hdone].
    rewrite Hfields, <- app_assoc. reflexivity.
Qed.

(** Reading the lines of a file leaves its records in the tokenizer, the
    last one still open. *)
Lemma run_lines (e : eol) (rs : list (list wfield)) (r : list wfield)
    (out : list (list wfield)) :
  Forall (fun r => r <> [] /\ Forall field_ok r) (r :: rs) ->
  let t := run (mk_tok FieldStart EmptyString [] out)
               (render_lines e (map render_record (r :: rs))) in
  at_field_end t /\ done_records t ++ [end_field t] = out ++ r :: rs.
Proof.
  revert r out. induction rs as [|r' rs IH]; intros r out Hok.
  - apply Forall_cons in Hok as [[Hne Hr] _].
    destruct r as [|f r]; [congruence|]. simpl map. simpl render_lines.
    destruct (run_record r f [] out Hr) as (Hend & Hfields & Hdone).
    split; [exact Hend|]. rewrite Hfields, Hdone. reflexivity.
  - apply Forall_cons in Hok as [[Hne Hr] Hok].
    destruct r as [|f r]; [congruence|].
    change (render_lines e (map render_record ((f :: r) :: r' :: rs)))
      with (render_record (f :: r) +:+ eol_text e
            +:+ render_lines e (map render_record (r' :: rs))).
    rewrite !run_app.
    destruct (run_record r f [] out Hr) as (Hend & Hfields & Hdone).
    rewrite (run_eol e _ Hend), Hfields, Hdone. simpl app.
    destruct (IH r' (out ++ [f :: r]) Hok) as (Hend' & Hall).
    split; [exact Hend'|]. rewrite Hall, <- app_assoc. reflexivity.
Qed.

Lemma at_field_end_not_quoted (t : tokenizer) : at_field_end t -> mode t <> InQuoted.
Proof. intros [->|[->| ->]]; discriminate. Qed.

(** The tokenizer gives back the records a file was written from, and one
    empty record more for the line end after the last of them. *)
Lemma tokenize_csv_file (e : eol) (final : bool) (records : list (list wfield)) :
  records <> [] ->
  Forall (fun r => r <> [] /\ Forall field_ok r) records ->
  tokenize (csv_file e final records) =
  Some (records ++ if final then [[mk_wfield false EmptyString]] else []).
Proof.
  intros Hne Hok. destruct records as [|r rs]; [congruence|].
  unfold tokenize, csv_file.
  destruct (run_lines e rs r [] Hok) as (Hend & Hall).
  change ([] ++ r :: rs) with (r :: rs) in Hall.
  destruct final.
  - rewrite run_app, (run_eol e _ Hend), Hall. reflexivity.
  - rewrite append_empty. cbv zeta. destruct (decide _) as [Hq|_].
    + exfalso. exact (at_field_end_not_quoted _ Hend Hq).
    + rewrite Hall, app_nil_r. reflexivity.
Qed.

Lemma filter_Forall {A} (P Q : A -> Prop) `{forall x, Decision (P x)} (l : list A) :
  Forall Q l -> Forall Q (filter P l).
Proof.
  induction 1 as [|x l Hx _ IH]; [constructor|].
  rewrite filter_cons. destruct (decide (P x)); [constructor|]; assumption.
Qed.

(** The frame the reader builds from a header and rows of as many fields
    as the header has. *)
Lemma csv_frame_shape (conv : string -> cell) (infer : list cell -> dtype)
    (M : nat) (header : list wfield) (body : list (list wfield)) :
  length header = M ->
  Forall (fun r => length r = M) body ->
  let df := mk_df (length body)
              (imap (fun j nm =>
                       let cells :=
                         map (fun r => conv (text (nth j r (mk_wfield false EmptyString))))
                             body in
                       mk_series nm (infer cells) cells)
                    (map text header)) in
  bool_decide (Forall (fun r => (length r <= length (map text header))%nat) body) = true /\
  shape df = (length body, M) /\ df_wf df.
Proof.
  intros Hh Hb df. split; [|split].
  - apply bool_decide_eq_true. rewrite length_map, Hh.
    eapply Forall_impl; [exact Hb|]. simpl. intros r ->. reflexivity.
  - unfold shape, df. simpl. rewrite length_imap, length_map, Hh. reflexivity.
  - unfold df_wf, df. simpl. apply Forall_forall. intros s Hs.
    apply list_elem_of_lookup in Hs as [j Hj]. rewrite list_lookup_imap in Hj.
    destruct (map text header !! j); [|discriminate]. injection Hj as <-.
    simpl. apply length_map.
Qed.

(** What the reader makes of a well-formed file: the blank lines are left
    out, the first record left is the header, the others are the rows. *)
Lemma csv_read_text_well_formed (conv : string -> cell) (infer : list cell -> dtype)
    (e : eol) (final : bool) (M : nat) (header : list wfield) (recs : list (list wfield)) :
  csv_well_formed M header recs ->
  match filter (fun r => blank_record r = false) (header :: recs) with
  | [] =>
      csv_read_text conv infer (csv_file e final (header :: recs)) =
      Raise (mk_exn EmptyDataError "No columns to parse from file")
  | _ :: rows =>
      exists df,
        csv_read_text conv infer (csv_file e final (header :: recs)) = Ok df /\
        shape df = (length rows, M) /\ df_wf df
  end.
Proof.
  intros [HM Hall]. unfold csv_read_text.
  rewrite tokenize_csv_file.
  - assert (Hkept : filter (fun r => blank_record r = false)
                      ((header :: recs) ++ (if final then [[mk_wfield false EmptyString]] else []))
                    = filter (fun r => blank_record r = false) (header :: recs)).
    { rewrite filter_app. destruct final; apply app_nil_r. }
    rewrite Hkept.
    assert (Hlen : Forall (fun r => length r = M)
                     (filter (fun r => blank_record r = false) (header :: recs))).
    { apply filter_Forall. eapply Forall_impl; [exact Hall|]. intros r [Hr _]. exact Hr. }
    destruct (filter _ (header :: recs)) as [|h rows]; [reflexivity|].
    apply Forall_cons in Hlen as [Hh Hrows].
    destruct (csv_frame_shape conv infer M h rows Hh Hrows) as (Hcheck & Hshape & Hwf).
    rewrite Hcheck. eexists. split; [reflexivity|]. split; [exact Hshape|exact Hwf].
  - discriminate.
  - eapply Forall_impl; [exact Hall|]. intros r [Hr Hok]. split; [|exact Hok].
    intros ->. simpl in Hr. lia.
Qed.

Lemma csv_file_empty_or_read `{Pandas} (st : state) (f : file) :
  fs st !! file_path st = Some f ->
  readable f = true ->
  load_data st =
  match (if decide (content f = EmptyString)
         then Raise (mk_exn EmptyDataError "No columns to parse from file")
         else read_text (content f)) with
  | Ok df => (Ok tt, add_stdout (Line "Data loaded successfully.")
                       (set_data (Some df) (add_read (file_path st) st)))
  | Raise e => (Raise e, match loader_diagnostic e with
                         | Some p => add_stdout p (add_read (file_path st) st)
                         | None => add_read (file_path st) st
                         end)
  end.
Proof.
  intros Hfile Hread. rewrite load_data_eq, read_csv_eq. unfold open_file.
  rewrite Hfile, Hread. destruct (decide (content f = EmptyString)); [reflexivity|].
  destruct (read_text (content f)); reflexivity.
Qed.

(** C9, as the code has it.  For a readable file holding a well-formed
    CSV text (a header and [N] records of [M] fields each, [M] at least one,
    fields between quotes or plain, lines ended by a line feed or by a
    carriage return and line feed, the last line end optional), the reader
    leaves out the blank lines and takes the first line left as the header:
    [load_data] stores a frame of exactly [M] columns with one row for every
    other line left, each column with a cell per row.  That is [N] rows when no
    line is blank.  When every line is blank it raises the Empty failure. *)
Theorem csv_shape_without_blank_lines (conv : string -> cell) (infer : list cell -> dtype)
    (st : state) (f : file) (e : eol) (final : bool) (M : nat)
    (header : list wfield) (recs : list (list wfield))
    (Hfile : fs st !! file_path st = Some f)
    (Hread : readable f = true)
    (Htext : content f = csv_file e final (header :: recs))
    (Hwf : csv_well_formed M header recs) :
  match filter (fun r => blank_record r = false) (header :: recs) with
  | [] =>
      exists st',
        @load_data (csv_pandas conv infer) st =
          (Raise (mk_exn EmptyDataError "No columns to parse from file"), st')
  | _ :: rows =>
      exists df st',
        @load_data (csv_pandas conv infer) st = (Ok tt, st') /\
        data st' = Some df /\
        shape df = (length rows, M) /\
        df_wf df
  end.
Proof.
  rewrite (@csv_file_empty_or_read (csv_pandas conv infer) st f Hfile Hread), Htext.
  pose proof (csv_read_text_well_formed conv infer e final M header recs Hwf) as Hr.
  destruct (filter _ (header :: recs)) as [|h rows].
  - destruct (decide _); [|simpl; rewrite Hr]; eexists; reflexivity.
  - destruct Hr as (df & Hdf & Hshape & Hdfwf).
    destruct (decide (csv_file e final (header :: recs) = EmptyString)) as [He|_].
    + exfalso. rewrite He in Hdf. discriminate.
    + simpl. rewrite Hdf. exists df. eexists. split; [reflexivity|].
      split; [reflexivity|]. split; [exact Hshape|exact Hdfwf].
Qed.

Lemma csv_shape_without_blank_lines_witness :
  let header := [unquoted "a"; mk_wfield true "b"] in
  let f := mk_file true (csv_file CRLF false (header :: quoted_records)) in
  let st := __init__ "q.csv" (world0 {[ "q.csv" := f ]}) in
  csv_well_formed 2 header quoted_records /\
  exists df st', @load_data simple_pandas st = (Ok tt, st') /\ data st' = Some df /\
                 shape df = (3%nat, 2%nat).
Proof.
  intros header f st.
  assert (Hwf : csv_well_formed 2 header quoted_records)
    by (apply (bool_decide_eq_true_1 (csv_well_formed _ _ _)); vm_compute; reflexivity).
  split; [exact Hwf|].
  pose proof (csv_shape_without_blank_lines simple_conv simple_infer st f CRLF false 2
                header quoted_records eq_refl eq_refl eq_refl Hwf) as Hshape.
  change (filter (fun r => blank_record r = false) (header :: quoted_records))
    with (header :: quoted_records) in Hshape.
  destruct Hshape as (df & st' & Hl & Hd & Hs & _).
  exists df, st'. split; [exact Hl|]. split; [exact Hd|exact Hs].
Defined.

(** C9 as stated fails on a file of one column where a record is the empty
    field: its line is blank, the reader skips it, and three records load as
    two rows. *)
Lemma blank_record_not_loaded : ~ csv_shape_as_claimed.
Proof.
  intros Hclaim.
  pose (recs := [[unquoted "1"]; [unquoted ""]; [unquoted "3"]]).
  pose (f := mk_file true (csv_file LF true ([unquoted "a"] :: recs))).
  pose (st := __init__ "one.csv" (world0 {[ "one.csv" := f ]})).
  assert (Hwf : csv_well_formed 1 [unquoted "a"] recs)
    by (apply (bool_decide_eq_true_1 (csv_well_formed _ _ _)); vm_compute; reflexivity).
  destruct (Hclaim simple_conv simple_infer st f LF true 1%nat [unquoted "a"] recs
              eq_refl eq_refl eq_refl Hwf) as (df & st' & Hl & Hd & Hs).
  assert (Hdf : data (snd (@load_data (csv_pandas simple_conv simple_infer) st)) = Some df)
    by (rewrite Hl; exact Hd).
  vm_compute in Hdf. injection Hdf as <-.
  vm_compute in Hs. discriminate Hs.
Qed.

(** * Further properties of the script *)

(** ** What the loader leaves alone *)

Lemma load_data_frame `{Pandas} (st st' : state) (r : result unit) :
  load_data st = (r, st') ->
  file_path st' = file_path st /\
  scaler st' = scaler st /\
  read_log st' = read_log st ++ [file_path st] /\
  np_random st' = np_random st /\
  fs st' = fs st /\
  stdout st `prefix_of` stdout st'.
Proof.
  rewrite load_data_eq, read_csv_eq.
  destruct (match open_file _ _ with Ok _ => _ | Raise _ => _ end) as [df|e].
  - intros [= <- <-]. simpl. repeat split; try reflexivity.
    apply prefix_app_r. reflexivity.
  - destruct (loader_diagnostic e); intros [= <- <-]; simpl; repeat split;
      try reflexivity. apply prefix_app_r. reflexivity.
Qed.

(** X1. A load that fails changes nothing in the checker: [data] keeps the
    value it had (the table of an earlier load, or [None]) and the scaler
    its fit; the exception that leaves is the one the reader raised. *)
Theorem failed_load_keeps_data `{Pandas} (st st' : state) (e : exn)
    (Hfail : load_data st = (Raise e, st')) :
  data st' = data st /\
  scaler st' = scaler st /\
  fst (read_csv (file_path st) st) = Raise e.
Proof.
  rewrite load_data_eq in Hfail.
  destruct (read_csv (file_path st) st) as [[df|e0] st0] eqn:Hr; [discriminate|].
  rewrite read_csv_eq in Hr. injection Hr as Hres <-.
  injection Hfail as <- <-.
  destruct (loader_diagnostic e0); repeat split; reflexivity.
Qed.

Lemma failed_load_keeps_data_witness :
  let st := set_data (Some example_df) (__init__ "empty.csv" (world0 example_fs)) in
  fst (@load_data simple_pandas st) =
    Raise (mk_exn EmptyDataError "No columns to parse from file") /\
  data (snd (@load_data simple_pandas st)) = Some example_df.
Proof.
  intros st.
  assert (Hl : @load_data simple_pandas st =
               (Raise (mk_exn EmptyDataError "No columns to parse from file"),
                snd (@load_data simple_pandas st))) by reflexivity.
  split; [reflexivity|].
  exact (proj1 (@failed_load_keeps_data simple_pandas st _ _ Hl)).
Defined.

(** ** The run as a whole *)

Lemma run_checks_after_load `{Pandas} `{Sklearn} (st st1 : state) :
  load_data st = (Ok tt, st1) ->
  exists st', run_checks st = (Ok tt, st') /\ only_prints st1 st'.
Proof.
  intros Hl.
  destruct (check_missing_values_returns st1) as (st2 & Hm & F2).
  destruct (check_duplicates_returns st2) as (st3 & Hdup & F3).
  destruct (check_outliers_returns st3) as (st4 & Ho & F4).
  exists st4. split.
  - unfold run_checks, bind. rewrite Hl, Hm, Hdup. exact Ho.
  - exact (only_prints_trans _ _ _ (only_prints_trans _ _ _ F2 F3) F4).
Qed.

(** X2. [run_checks] ends the way [load_data] ends: it raises exactly when
    the loader raises, and then the same exception; nothing after the load
    can make it fail. *)
Theorem run_checks_fails_as_loader `{Pandas} `{Sklearn} (st : state) :
  fst (run_checks st) = fst (load_data st).
Proof.
  destruct (load_data st) as [[[]|e] st1] eqn:Hl.
  - destruct (run_checks_after_load st st1 Hl) as (st' & -> & _). reflexivity.
  - rewrite (run_checks_load_fails st st1 e Hl). reflexivity.
Qed.

Lemma run_checks_frame `{Pandas} `{Sklearn} (st : state) :
  file_path (snd (run_checks st)) = file_path st /\
  read_log (snd (run_checks st)) = read_log st ++ [file_path st] /\
  np_random (snd (run_checks st)) = np_random st /\
  fs (snd (run_checks st)) = fs st /\
  stdout st `prefix_of` stdout (snd (run_checks st)).
Proof.
  destruct (load_data st) as [[[]|e] st1] eqn:Hl.
  - destruct (run_checks_after_load st st1 Hl) as (st' & -> & F). simpl.
    destruct (load_data_frame _ _ _ Hl) as (P1 & _ & R1 & N1 & F1 & O1).
    destruct F as (P2 & _ & R2 & N2 & F2 & O2).
    repeat split; try congruence. etrans; eassumption.
  - rewrite (run_checks_load_fails st st1 e Hl). simpl.
    destruct (load_data_frame _ _ _ Hl) as (P1 & _ & R1 & N1 & F1 & O1).
    repeat split; assumption.
Qed.

(** X3. Every run of [run_checks], whether the load fails or not, calls
    [pd.read_csv] exactly once, and on the checker's own path: no check
    reads the file again and a failed load is not tried a second time. *)
Theorem run_checks_reads_once `{Pandas} `{Sklearn} (st : state) :
  read_log (snd (run_checks st)) = read_log st ++ [file_path st].
Proof.
  destruct (run_checks_frame st) as (_ & R & _). exact R.
Qed.

(** ** The entry point *)

Lemma main_eq `{Pandas} `{Sklearn} (st : state) :
  main st =
  match run_checks (__init__ "path_to_your_dataset.csv" st) with
  | (Ok a, st') => (Ok a, st')
  | (Raise e, st') => (Ok tt, add_stdout (top_level_line e) st')
  end.
Proof.
  unfold main, bind, modify.
  exact (try_except_Exception_print run_checks top_level_line
           (__init__ "path_to_your_dataset.csv" st)).
Qed.

(** X5. When the load fails with [e], [main] prints the loader's diagnostic
    (if [e] is one of the three classes the loader reports), then its own
    line with the message of [e], and nothing else: no check has run and no
    table is held. *)
Theorem main_load_failure `{Pandas} `{Sklearn} (st st1 : state) (e : exn)
    (Hfail : load_data (__init__ "path_to_your_dataset.csv" st) = (Raise e, st1)) :
  main st = (Ok tt, add_stdout (top_level_line e) st1) /\
  stdout (snd (main st)) =
    stdout st ++ match loader_diagnostic e with
                 | Some p => [p]
                 | None => []
                 end ++ [top_level_line e] /\
  data (snd (main st)) = None.
Proof.
  assert (Hm : main st = (Ok tt, add_stdout (top_level_line e) st1)).
  { rewrite main_eq, (run_checks_load_fails _ _ _ Hfail). reflexivity. }
  split; [exact Hm|]. rewrite Hm. simpl.
  rewrite load_data_eq in Hfail.
  destruct (read_csv _ _) as [[df|e0] st0] eqn:Hr; [discriminate|].
  rewrite read_csv_eq in Hr. injection Hr as _ <-.
  injection Hfail as <- <-.
  destruct (loader_diagnostic e0); simpl; split; try reflexivity.
  rewrite <- app_assoc. reflexivity.
Qed.

Lemma main_load_failure_witness :
  stdout (snd (@main simple_pandas toy_sklearn (world0 example_fs))) =
    [Line "Error: [Errno 2] No such file or directory: 'path_to_your_dataset.csv'";
     Line "An error occurred while running data integrity checks: [Errno 2] No such file or directory: 'path_to_your_dataset.csv'"].
Proof.
  destruct (@main_load_failure simple_pandas toy_sklearn (world0 example_fs) _ _
              (@load_data_missing simple_pandas
                 (__init__ "path_to_your_dataset.csv" (world0 example_fs)) eq_refl))
    as (_ & -> & _).
  reflexivity.
Defined.

(** X6. When the load succeeds, [main] is [run_checks] on a fresh checker:
    the top-level error line is not printed. *)
Theorem main_load_success `{Pandas} `{Sklearn} (st st1 : state)
    (Hload : load_data (__init__ "path_to_your_dataset.csv" st) = (Ok tt, st1)) :
  main st = run_checks (__init__ "path_to_your_dataset.csv" st).
Proof.
  rewrite main_eq.
  destruct (run_checks_after_load _ _ Hload) as (st' & -> & _). reflexivity.
Qed.

Lemma main_load_success_witness :
  let w := world0 {[ "path_to_your_dataset.csv" := mk_file true example_csv ]} in
  stdout (snd (@main simple_pandas toy_sklearn w)) =
    [Line "Data loaded successfully.";
     Line "Warning: Missing values detected.";
     SeriesRepr [("a", 0%nat); ("b", 1%nat)];
     Line "Warning: Duplicate records detected.";
     Line "Number of duplicates: 1";
     Line "Outliers detected: 1"].
Proof.
  intros w.
  assert (Hl : @load_data simple_pandas (__init__ "path_to_your_dataset.csv" w) =
               (Ok tt, snd (@load_data simple_pandas (__init__ "path_to_your_dataset.csv" w))))
    by (vm_compute; reflexivity).
  rewrite (@main_load_success simple_pandas toy_sklearn w _ Hl).
  vm_compute. reflexivity.
Defined.

(** ** What each check prints *)

Lemma check_missing_values_prints (st : state) (df : DataFrame) :
  data st = Some df ->
  stdout (snd (check_missing_values st)) = stdout st ++ missing_prints df.
Proof.
  intros Hd. unfold check_missing_values. rewrite try_except_Exception_print.
  unfold missing_values_body, bind at 1. rewrite (data_attr_Some _ _ _ Hd).
  rewrite frame_sum_isnull, series_sum_missing_counts. unfold missing_prints.
  destruct (decide (total_missing df = 0%nat)) as [Hz|Hnz].
  - rewrite Hz. reflexivity.
  - destruct (total_missing df) as [|k]; [congruence|].
    simpl. unfold bind, print, modify. simpl.
    rewrite (data_attr_Some "isnull" (add_stdout _ st) df Hd).
    rewrite frame_sum_isnull. simpl. rewrite <- app_assoc. reflexivity.
Qed.

Lemma check_duplicates_prints (st : state) (df : DataFrame) :
  data st = Some df ->
  stdout (snd (check_duplicates st)) = stdout st ++ duplicate_prints df.
Proof.
  intros Hd. unfold check_duplicates. rewrite try_except_Exception_print.
  unfold duplicates_body, bind at 1. rewrite (data_attr_Some _ _ _ Hd).
  rewrite any_sum_bools, sum_duplicated. unfold duplicate_prints.
  destruct (decide (duplicate_count df = 0%nat)) as [Hz|Hnz].
  - rewrite (bool_decide_eq_true_2 _ Hz). reflexivity.
  - rewrite (bool_decide_eq_false_2 _ Hnz). simpl.
    unfold bind, print, modify. simpl.
    rewrite (data_attr_Some "duplicated" (add_stdout _ st) df Hd).
    rewrite sum_duplicated. simpl. rewrite <- app_assoc. reflexivity.
Qed.

Lemma check_outliers_prints `{Sklearn} (st : state) :
  stdout (snd (check_outliers st)) =
  stdout st ++ [outlier_report (fst (outlier_labels st))].
Proof.
  rewrite check_outliers_eq. simpl.
  destruct (outlier_labels st) as [r st1] eqn:Hl.
  apply outlier_labels_scaler_only in Hl as [sc ->]. reflexivity.
Qed.

Lemma outlier_labels_data_only `{Sklearn} (st st' : state) :
  data st = data st' -> fst (outlier_labels st) = fst (outlier_labels st').
Proof.
  intros Hd. destruct (data st) as [df|] eqn:Hs.
  - rewrite (outlier_labels_eq st df Hs), (outlier_labels_eq st' df (eq_sym Hd)).
    destruct (scaler_fit_transform _) as [[p X]|e]; reflexivity.
  - unfold outlier_labels, bind.
    rewrite (data_attr_None _ _ Hs), (data_attr_None _ _ (eq_sym Hd)). reflexivity.
Qed.

Lemma error_line_printed (body : M unit) (msg : exn -> printed) (st : state) (e : exn) :
  body st = (Raise e, st) ->
  stdout (snd (try_except body [(Exception, fun e => print (msg e))] st)) =
  stdout st ++ [msg e].
Proof. intros Hb. rewrite try_except_Exception_print, Hb. reflexivity. Qed.

(** X7. A run whose load succeeds prints, in this order and nothing else:
    the confirmation of the load, the missing-value report of the loaded
    table, its duplicate report, and the message of the outlier check. *)
Theorem run_checks_output `{Pandas} `{Sklearn} (st st1 : state)
    (Hload : load_data st = (Ok tt, st1)) :
  exists df,
    data st1 = Some df /\
    stdout (snd (run_checks st)) =
      stdout st ++ [Line "Data loaded successfully."] ++ missing_prints df
        ++ duplicate_prints df ++ [outlier_report (fst (outlier_labels st1))].
Proof.
  destruct (load_data_Ok st st1 Hload) as (df & _ & Hst1).
  assert (D1 : data st1 = Some df) by (rewrite Hst1; reflexivity).
  assert (O1 : stdout st1 = stdout st ++ [Line "Data loaded successfully."])
    by (rewrite Hst1; reflexivity).
  destruct (check_missing_values_returns st1) as (st2 & Hm & F2).
  destruct (check_duplicates_returns st2) as (st3 & Hdup & F3).
  assert (D2 : data st2 = Some df) by (destruct F2 as (_ & -> & _); exact D1).
  assert (D3 : data st3 = Some df) by (destruct F3 as (_ & -> & _); exact D2).
  exists df. split; [exact D1|].
  assert (Hrun : run_checks st = check_outliers st3)
    by (unfold run_checks, bind; rewrite Hload, Hm, Hdup; reflexivity).
  rewrite Hrun, check_outliers_prints.
  rewrite (outlier_labels_data_only st3 st1) by congruence.
  pose proof (check_duplicates_prints st2 df D2) as L3. rewrite Hdup in L3. simpl in L3.
  pose proof (check_missing_values_prints st1 df D1) as L2. rewrite Hm in L2. simpl in L2.
  rewrite L3, L2, O1. rewrite <- !app_assoc. reflexivity.
Qed.

Lemma run_checks_output_witness :
  let st := __init__ "data.csv" (world0 example_fs) in
  stdout (snd (@run_checks simple_pandas toy_sklearn st)) =
    [Line "Data loaded successfully."] ++ missing_prints example_df
      ++ duplicate_prints example_df ++ [Line "Outliers detected: 1"].
Proof.
  intros st.
  assert (Hl : @load_data simple_pandas st = (Ok tt, snd (@load_data simple_pandas st)))
    by (vm_compute; reflexivity).
  destruct (@run_checks_output simple_pandas toy_sklearn st _ Hl) as (df & Hd & ->).
  vm_compute in Hd. injection Hd as <-. vm_compute. reflexivity.
Defined.

(** X8. No check is silent: whatever the state of the checker and
    whatever the libraries do, the missing-value check and the duplicate
    check each call [print] once or twice, and the outlier check calls it
    exactly once.  (One call may write several lines: the display of a
    series has one per column.) *)
Theorem every_check_reports `{Sklearn} (st : state) :
  (exists calls, stdout (snd (check_missing_values st)) = stdout st ++ calls /\
                 (1 <= length calls <= 2)%nat) /\
  (exists calls, stdout (snd (check_duplicates st)) = stdout st ++ calls /\
                 (1 <= length calls <= 2)%nat) /\
  (exists call, stdout (snd (check_outliers st)) = stdout st ++ [call]).
Proof.
  split; [|split].
  - destruct (data st) as [df|] eqn:Hd.
    + exists (missing_prints df). split; [apply check_missing_values_prints, Hd|].
      unfold missing_prints. destruct (decide _); simpl; lia.
    + eexists [_]. split; [|simpl; lia].
      apply error_line_printed. unfold missing_values_body, bind.
      rewrite (data_attr_None _ _ Hd). reflexivity.
  - destruct (data st) as [df|] eqn:Hd.
    + exists (duplicate_prints df). split; [apply check_duplicates_prints, Hd|].
      unfold duplicate_prints. destruct (decide _); simpl; lia.
    + eexists [_]. split; [|simpl; lia].
      apply error_line_printed. unfold duplicates_body, bind.
      rewrite (data_attr_None _ _ Hd). reflexivity.
  - eexists. apply check_outliers_prints.
Qed.

(** ** When the missing-value check gives the all-clear *)

Lemma missing_count_zero (s : Series) :
  missing_count s = 0%nat <-> NaN ∉ values s.
Proof.
  unfold missing_count. induction (values s) as [|c l IH]; simpl.
  - split; [intros _; apply not_elem_of_nil|reflexivity].
  - rewrite filter_cons, not_elem_of_cons.
    destruct (decide (c = NaN)) as [->|Hc]; simpl.
    + split; [discriminate|]. intros [Hne _]. congruence.
    + rewrite IH. split; [intros Hl; split; [congruence|exact Hl]|intros [_ Hl]; exact Hl].
Qed.

Lemma total_missing_zero (df : DataFrame) :
  total_missing df = 0%nat <-> forall s, s ∈ columns df -> NaN ∉ values s.
Proof.
  unfold total_missing. induction (columns df) as [|s l IH]; simpl.
  - split; [intros _ s Hs; apply elem_of_nil in Hs; contradiction|reflexivity].
  - split.
    + intros Hsum s' Hs'. apply elem_of_cons in Hs' as [->|Hs'].
      * apply missing_count_zero. lia.
      * apply IH; [lia|exact Hs'].
    + intros Hall.
      assert (H0 : missing_count s = 0%nat)
        by (apply missing_count_zero, Hall, elem_of_cons; left; reflexivity).
      assert (H1 : sum_list (map missing_count l) = 0%nat)
        by (apply IH; intros s' Hs'; apply Hall, elem_of_cons; right; exact Hs').
      unfold id. rewrite H0. simpl. exact H1.
Qed.

(** X9. On a loaded table the missing-value check prints the all-clear line,
    and only it, exactly when no cell of any column is the missing marker. *)
Theorem no_missing_iff_all_clear (st : state) (df : DataFrame) (Hd : data st = Some df) :
  stdout (snd (check_missing_values st)) = stdout st ++ [Line "No missing values detected."]
  <-> forall s, s ∈ columns df -> NaN ∉ values s.
Proof.
  rewrite (check_missing_values_prints st df Hd), <- total_missing_zero.
  unfold missing_prints. destruct (decide (total_missing df = 0%nat)) as [Hz|Hnz].
  - split; [intros _; exact Hz|reflexivity].
  - split; [|contradiction]. intros Heq. apply app_inv_head in Heq. discriminate.
Qed.

Lemma no_missing_iff_all_clear_witness :
  let st := set_data (Some example_df) (world0 example_fs) in
  data st = Some example_df /\
  stdout (snd (check_missing_values st)) <> stdout st ++ [Line "No missing values detected."].
Proof.
  intros st. split; [reflexivity|]. intros Heq.
  apply (proj1 (no_missing_iff_all_clear st example_df eq_refl)) with
    (s := mk_series "b" object_ [Str "x"; Str "y"; Str "x"; NaN; Str "z"]) in Heq.
  - apply Heq. simpl. repeat constructor.
  - simpl. repeat constructor.
Defined.

(** ** What the duplicate count counts *)

Lemma duplicated_from_none (rs seen : list (list cell)) :
  sum_bools (duplicated_from seen rs) = 0%nat <->
  NoDup rs /\ forall r, r ∈ rs -> r ∉ seen.
Proof.
  revert seen. induction rs as [|r rs IH]; intros seen; simpl.
  - split; [|reflexivity]. intros _. split; [constructor|].
    intros r Hr. apply elem_of_nil in Hr. contradiction.
  - destruct (bool_decide (r ∈ seen)) eqn:Hb.
    + apply bool_decide_eq_true in Hb. simpl. split; [discriminate|].
      intros [_ Hall]. exfalso. apply (Hall r); [left|exact Hb].
    + apply bool_decide_eq_false in Hb. simpl. rewrite IH, NoDup_cons. split.
      * intros [Hnd Hall]. split; [split; [|exact Hnd]|].
        -- intros Hin. apply (Hall r Hin). left.
        -- intros x Hx Hs. apply elem_of_cons in Hx as [->|Hx]; [contradiction|].
           apply (Hall x Hx). right. exact Hs.
      * intros [[Hnotin Hnd] Hall]. split; [exact Hnd|].
        intros x Hx Hs. apply elem_of_cons in Hs as [->|Hs]; [contradiction|].
        apply (Hall x); [right; exact Hx|exact Hs].
Qed.

(** Taking out the marked rows: what is left has no repetition, holds
    every row that is not among [seen], and the marked rows make up the
    rest. *)
Lemma unflagged_spec (rs seen : list (list cell)) :
  NoDup (unflagged rs (duplicated_from seen rs)) /\
  (forall r, r ∈ unflagged rs (duplicated_from seen rs) <-> r ∈ rs /\ r ∉ seen) /\
  (length (unflagged rs (duplicated_from seen rs)) + sum_bools (duplicated_from seen rs)
   = length rs)%nat.
Proof.
  revert seen. induction rs as [|r rs IH]; intros seen; simpl.
  - split; [constructor|]. split; [|reflexivity].
    intros r. split; [intros Hr|intros [Hr _]]; apply elem_of_nil in Hr; contradiction.
  - destruct (bool_decide (r ∈ seen)) eqn:Hb.
    + apply bool_decide_eq_true in Hb.
      destruct (IH seen) as (Hnd & Hmem & Hlen). simpl.
      split; [exact Hnd|]. split; [|lia].
      intros x. rewrite Hmem, elem_of_cons. split; [tauto|].
      intros [[->|Hx] Hs]; [contradiction|tauto].
    + apply bool_decide_eq_false in Hb.
      destruct (IH (r :: seen)) as (Hnd & Hmem & Hlen). simpl.
      split; [|split; [|lia]].
      * apply NoDup_cons. split; [|exact Hnd].
        intros Hin. apply Hmem in Hin as [_ Hin]. apply Hin. left.
      * intros x. rewrite !elem_of_cons, Hmem, not_elem_of_cons.
        destruct (decide (x = r)) as [->|Hne]; tauto.
Qed.

Lemma rows_length (df : DataFrame) : length (rows df) = index df.
Proof. unfold rows. rewrite length_map, length_seq. reflexivity. Qed.

Lemma duplicated_distinct (df : DataFrame) :
  (length (remove_dups (rows df)) + sum_bools (duplicated df) = index df)%nat.
Proof.
  unfold duplicated.
  destruct (unflagged_spec (rows df) []) as (Hnd & Hmem & Hlen).
  rewrite rows_length in Hlen. rewrite <- Hlen. f_equal.
  apply Permutation_length, NoDup_Permutation.
  - apply NoDup_remove_dups.
  - exact Hnd.
  - intros r. rewrite elem_of_remove_dups, Hmem. split; [|tauto].
    intros Hr. split; [exact Hr|apply not_elem_of_nil].
Qed.

(** X10. On a loaded table the duplicate check prints the all-clear line,
    and only it, exactly when the rows of the table are pairwise
    different. *)
Theorem no_duplicates_iff_all_clear (st : state) (df : DataFrame) (Hd : data st = Some df) :
  stdout (snd (check_duplicates st)) = stdout st ++ [Line "No duplicate records detected."]
  <-> NoDup (rows df).
Proof.
  rewrite (check_duplicates_prints st df Hd).
  assert (Hz : duplicate_count df = 0%nat <-> NoDup (rows df)).
  { rewrite <- sum_duplicated. unfold duplicated. rewrite duplicated_from_none.
    split; [tauto|]. intros Hnd. split; [exact Hnd|].
    intros r _. apply not_elem_of_nil. }
  rewrite <- Hz. unfold duplicate_prints.
  destruct (decide (duplicate_count df = 0%nat)) as [H0|Hn0].
  - split; [intros _; exact H0|reflexivity].
  - split; [|contradiction]. intros Heq. apply app_inv_head in Heq. discriminate.
Qed.

Lemma no_duplicates_iff_all_clear_witness :
  let df := mk_df 2 [mk_series "a" int64 [Int 1; Int 2]] in
  let st := set_data (Some df) (world0 example_fs) in
  data st = Some df /\
  stdout (snd (check_duplicates st)) = [Line "No duplicate records detected."].
Proof.
  intros df st. split; [reflexivity|].
  apply (proj2 (no_duplicates_iff_all_clear st df eq_refl)).
  apply (bool_decide_unpack (NoDup (rows df))). vm_compute. exact I.
Defined.

(** X11. The number the duplicate check reports is the number of rows less
    the number of different rows: the all-clear line when every row is
    different from the others, and otherwise the warning with that
    difference. *)
Theorem duplicates_are_rows_less_distinct (st : state) (df : DataFrame)
    (Hd : data st = Some df) :
  let distinct := length (remove_dups (rows df)) in
  (distinct <= index df)%nat /\
  stdout (snd (check_duplicates st)) =
    stdout st ++
    if decide (distinct = index df) then [Line "No duplicate records detected."]
    else [Line "Warning: Duplicate records detected.";
          Line ("Number of duplicates: " +:+ pretty (index df - distinct)%nat)].
Proof.
  intros distinct. pose proof (duplicated_distinct df) as Hsum.
  rewrite sum_duplicated in Hsum. fold distinct in Hsum.
  split; [lia|]. rewrite (check_duplicates_prints st df Hd). unfold duplicate_prints.
  destruct (decide (duplicate_count df = 0%nat)) as [H0|Hn0];
    destruct (decide (distinct = index df)) as [He|Hne]; try lia; [reflexivity|].
  replace (index df - distinct)%nat with (duplicate_count df) by lia. reflexivity.
Qed.

Lemma duplicates_are_rows_less_distinct_witness :
  let st := set_data (Some example_df) (world0 example_fs) in
  data st = Some example_df /\
  length (remove_dups (rows example_df)) = 4%nat /\
  stdout (snd (check_duplicates st)) =
    [Line "Warning: Duplicate records detected."; Line "Number of duplicates: 1"].
Proof.
  intros st. split; [reflexivity|]. split; [vm_compute; reflexivity|].
  destruct (duplicates_are_rows_less_distinct st example_df eq_refl) as [_ ->].
  vm_compute. reflexivity.
Defined.
